(** * Sort-Visualization: the Orchestrator of [main.py]

    A shallow embedding of [SortingVisualizerApp] (src/main.py): the mode
    registry [MODE_CONFIGS], the application object with the fields the
    handlers read and write, and every handler as a function from
    application state to an outcome.  Calls on collaborators (Tk widgets,
    the control panel, the visualizer) are recorded, in program order, in
    an event log carried by the state.

    The visualizer classes and the control panel live in modules that are
    imported by [main.py] ([visualizers.*], [core.controls]); their
    behaviour is taken from the capability contract of the specification
    and every such definition says so. *)

From stdpp Require Import gmap strings list pretty.

(** ** Constants (main.py, lines 16-19) *)

Definition DEFAULT_DATA_SIZE : Z := 15.
Definition QUICK_SORT_MAX_SIZE : Z := 8.
Definition MERGE_SORT_MAX_SIZE : Z := 8.
Definition HEAP_SORT_MAX_SIZE : Z := 10.

(** ** Mode registry (main.py, lines 22-51) *)

(** One entry of [MODE_CONFIGS].  [visualizer_class] is the class name:
    for ['basic'] the source stores the class object [BarVisualizer]
    itself (imported at module load), for the others the name looked up
    in [module].  [max_size = None] is Python's [None]. *)
Record ModeConfig := {
  title : string;
  visualizer_class : string;
  max_size : option Z;
  has_algorithm_selection : bool;
  module : option string
}.

Definition MODE_CONFIGS : gmap string ModeConfig :=
  <[ "basic" := {| title := "기본 정렬 알고리즘";
                   visualizer_class := "BarVisualizer";
                   max_size := None;
                   has_algorithm_selection := true;
                   module := None |} ]>
 (<[ "quick" := {| title := "퀵 정렬 (Quick Sort)";
                   visualizer_class := "QuickSortVisualizer";
                   max_size := Some QUICK_SORT_MAX_SIZE;
                   has_algorithm_selection := false;
                   module := Some "visualizers.quick_visualizer" |} ]>
 (<[ "merge" := {| title := "병합 정렬 (Merge Sort)";
                   visualizer_class := "MergeSortVisualizer";
                   max_size := Some MERGE_SORT_MAX_SIZE;
                   has_algorithm_selection := false;
                   module := Some "visualizers.merge_visualizer" |} ]>
 (<[ "heap" := {| title := "힙 정렬 (Heap Sort)";
                  visualizer_class := "HeapSortVisualizer";
                  max_size := Some HEAP_SORT_MAX_SIZE;
                  has_algorithm_selection := false;
                  module := Some "visualizers.heap_visualizer" |} ]>
  ∅))).

(** ** Python list slicing and truthiness *)

(** [l[:n]]: the first [n] elements for [n >= 0]; for a negative [n] all
    but the last [-n] elements. *)
Definition slice_to (n : Z) (l : list Z) : list Z :=
  if (0 <=? n)%Z then take (Z.to_nat n) l
  else take (length l - Z.to_nat (- n)) l.

(** [self.data[:max_size] if max_size else self.data]
    (main.py, lines 180 and 318): [None] and [0] are falsy. *)
Definition data_to_use (max_size : option Z) (data : list Z) : list Z :=
  match max_size with
  | Some n => if (n =? 0)%Z then data else slice_to n data
  | None => data
  end.

(** ** Drawing surface *)

(** What the Tk canvas currently shows: nothing, the bars of an array
    with some highlighted positions, or a text item. *)
Inductive Canvas :=
| CanvasEmpty
| CanvasBars (arr : list Z) (highlighted : list nat)
| CanvasText (text : string).

(** ** Algorithm steps and producers *)

(** Modelled from the spec: AlgorithmStep (section 3), produced by the
    generators of the visualizer modules, which are not in [main.py].
    "Each step fully determines the resulting array state": a step is
    the array after it together with the positions to highlight. *)
Record AlgorithmStep := {
  highlight : list nat;
  snapshot : list Z
}.

(** Modelled from the spec: the Producer (sections 3 and 4.1), a Python
    generator held in [_current_generator].  A lazy, finite,
    non-restartable sequence, consumed in order: the steps it has yet to
    produce. *)
Definition Producer := list AlgorithmStep.

Definition exhausted (g : Producer) : bool :=
  match g with [] => true | _ :: _ => false end.

(** The only callback ever stored in [on_complete]
    (main.py, lines 184 and 234). *)
Inductive Callback := BoundOnSortComplete.

(** ** The Visualizer capability contract *)

Module Visualizer.

(** Modelled from the spec: VisualizerState (section 3); the classes
    [BarVisualizer], [QuickSortVisualizer], [MergeSortVisualizer] and
    [HeapSortVisualizer] are in modules that [main.py] imports.  The
    fields [data], [is_running], [is_paused], [_current_generator] and
    [on_complete] are the attributes [main.py] reads or assigns;
    [original_data] is the "pre-sort state" that [reset()] restores. *)
Record t := mk {
  class_name : string;
  data : list Z;
  original_data : list Z;
  is_running : bool;
  is_paused : bool;
  step_mode : bool;
  delay : Z;
  _current_generator : option Producer;
  is_complete : bool;
  on_complete : option Callback
}.

Definition set_data (x : list Z) (v : t) : t :=
  mk (class_name v) x (original_data v) (is_running v) (is_paused v)
     (step_mode v) (delay v) (_current_generator v) (is_complete v)
     (on_complete v).
Definition set_is_running (x : bool) (v : t) : t :=
  mk (class_name v) (data v) (original_data v) x (is_paused v)
     (step_mode v) (delay v) (_current_generator v) (is_complete v)
     (on_complete v).
Definition set_is_paused (x : bool) (v : t) : t :=
  mk (class_name v) (data v) (original_data v) (is_running v) x
     (step_mode v) (delay v) (_current_generator v) (is_complete v)
     (on_complete v).
Definition set_current_generator (x : option Producer) (v : t) : t :=
  mk (class_name v) (data v) (original_data v) (is_running v) (is_paused v)
     (step_mode v) (delay v) x (is_complete v) (on_complete v).
Definition set_is_complete (x : bool) (v : t) : t :=
  mk (class_name v) (data v) (original_data v) (is_running v) (is_paused v)
     (step_mode v) (delay v) (_current_generator v) x (on_complete v).
Definition set_on_complete (x : option Callback) (v : t) : t :=
  mk (class_name v) (data v) (original_data v) (is_running v) (is_paused v)
     (step_mode v) (delay v) (_current_generator v) (is_complete v) x.

(** Modelled from the spec: the constructor [visualizer_class(canvas,
    data)].  "A Visualizer exclusively owns ... its own copy of the
    array" (section 3): the array it is given becomes both the current
    array and the pre-sort state; it starts IDLE, with no producer and
    no completion callback.  The initial delay is a default of the
    absent class. *)
Definition new (initial_delay : Z) (cls : string) (arr : list Z) : t :=
  mk cls arr arr false false false initial_delay None false None.

(** Modelled from the spec: [draw()] "renders current array state; no
    side effects beyond the canvas" (section 4.2). *)
Definition draw (v : t) : Canvas := CanvasBars (data v) [].

(** Modelled from the spec: [setStepMode(bool)] and [setDelay(ms)],
    "configuration mutators" (section 4.2). *)
Definition set_step_mode (b : bool) (v : t) : t :=
  mk (class_name v) (data v) (original_data v) (is_running v) (is_paused v)
     b (delay v) (_current_generator v) (is_complete v) (on_complete v).
Definition set_delay (ms : Z) (v : t) : t :=
  mk (class_name v) (data v) (original_data v) (is_running v) (is_paused v)
     (step_mode v) ms (_current_generator v) (is_complete v) (on_complete v).

(** Modelled from the spec: [canResume()] is "true iff a producer
    exists, is not exhausted, and is currently suspended"
    (section 4.2). *)
Definition can_resume (v : t) : bool :=
  match _current_generator v with
  | Some g => negb (exhausted g) && is_paused v && negb (is_running v)
  | None => false
  end.

(** Modelled from the spec: [stop()] "requests suspension before the
    next step boundary; does not discard producer state ...
    Idempotent if already stopped" (section 4.2). *)
Definition stop (v : t) : t :=
  if is_running v then set_is_paused true (set_is_running false v) else v.

(** Modelled from the spec: [_run_visualization(generator)] hands the
    producer to the Animation Driver (sections 4.2 and 4.3), a
    "timer-scheduled single-step callback" (section 5): the driver now
    pumps [g]; steps are consumed by later ticks. *)
Definition _run_visualization (g : Producer) (v : t) : t :=
  set_current_generator (Some g) v.

(** Modelled from the spec: [sort(algorithmId?)] (section 4.2).  "If no
    producer is currently suspended, constructs a fresh AlgorithmStep
    Producer from the current array and the optional algorithm
    selector ..., marks state running, and hands the producer to the
    Animation Driver.  Calling sort() while already running is a
    no-op"; with a suspended producer it is the PAUSED -> RUNNING
    resume edge of the state machine.  [fresh] is the generator
    function of the class. *)
Definition sort (fresh : string -> option string -> list Z -> Producer)
    (algorithm : option string) (v : t) : t :=
  if is_running v then v
  else
    let g := match _current_generator v with
             | Some g => g
             | None => fresh (class_name v) algorithm (data v)
             end in
    _run_visualization g
      (set_is_complete false (set_is_paused false (set_is_running true v))).

(** Modelled from the spec: [reset(newArray?)] "discards any suspended
    producer, restores (or replaces) the array to its pre-sort state,
    clears running/paused/completion flags, redraws" (section 4.2).
    The redraw is the second component. *)
Definition reset (new_array : option (list Z)) (v : t) : t * Canvas :=
  let arr := default (original_data v) new_array in
  let v' := mk (class_name v) arr arr false false (step_mode v) (delay v)
               None false (on_complete v) in
  (v', draw v').

(** Modelled from the spec: one consumption of the producer by the
    Animation Driver (section 4.3): request the next step, apply it,
    draw; on exhaustion leave the Visualizer COMPLETE with no producer
    and report that the completion callback is to be invoked.  The
    result is the new state, the canvas, and whether completion was
    detected. *)
Definition consume (v : t) (cv : Canvas) : t * Canvas * bool :=
  match _current_generator v with
  | None => (v, cv, false)
  | Some [] =>
      (set_is_complete true (set_is_paused false (set_is_running false
         (set_current_generator None v))), cv, true)
  | Some (st :: rest) =>
      (set_current_generator (Some rest) (set_data (snapshot st) v),
       CanvasBars (snapshot st) (highlight st), false)
  end.

(** Modelled from the spec: [step()] is "valid only in step-mode;
    advances the producer by exactly one AlgorithmStep, applies it,
    redraws, and re-suspends"; outside step-mode it is a no-op
    (sections 4.2 and 7). *)
Definition step (v : t) (cv : Canvas) : t * Canvas * bool :=
  if step_mode v then consume v cv else (v, cv, false).

(** Modelled from the spec: a timer tick of the Animation Driver
    (sections 4.3 and 5): consumes one step unless a stop request is
    observed; in step mode the driver "never auto-advances". *)
Definition tick (v : t) (cv : Canvas) : t * Canvas * bool :=
  if is_running v && negb (is_paused v) && negb (step_mode v)
  then consume v cv else (v, cv, false).

End Visualizer.

(** ** The control panel *)

Module ControlPanel.

(** Modelled from the spec: ControlPanel (section 6), class
    [core.controls.ControlPanel].  [step_mode] is what
    [get_step_mode()] returns, [algorithm_var] what
    [algorithm_var.get()] returns, [running] the value last passed to
    [set_running_state], and [on_algorithm_change] tells whether the
    optional callback was supplied at construction. *)
Record t := mk {
  step_mode : bool;
  algorithm_var : string;
  running : bool;
  on_algorithm_change : bool
}.

(** Modelled from the spec: the constructor [ControlPanel(frame,
    on_start=..., on_algorithm_change=...)]; nothing runs yet and step
    mode is off.  The initial selection is a default of the absent
    class. *)
Definition new (initial_algorithm : string) (with_algorithm_change : bool) : t :=
  mk false initial_algorithm false with_algorithm_change.

(** Modelled from the spec: [get_step_mode()] and
    [setRunningState(bool)] (section 6). *)
Definition get_step_mode (c : t) : bool := step_mode c.

Definition set_running_state (b : bool) (c : t) : t :=
  mk (step_mode c) (algorithm_var c) b (on_algorithm_change c).

(** Modelled from the spec: the user ticking the step-mode box or
    picking an algorithm in the panel (section 6). *)
Definition user_set_step_mode (b : bool) (c : t) : t :=
  mk b (algorithm_var c) (running c) (on_algorithm_change c).
Definition user_select_algorithm (a : string) (c : t) : t :=
  mk (step_mode c) a (running c) (on_algorithm_change c).

End ControlPanel.

(** ** Calls on collaborators *)

(** Everything the Orchestrator does to an object other than itself, in
    the order the statements run. *)
Inductive Event :=
| TitleConfig (text : string)        (* self.title_label.config(text=...) *)
| StatusConfig (text : string)       (* self.status_bar.config(text=...) *)
| DestroyControlWidgets              (* widget.destroy() for the children of control_frame *)
| ImportModule (name : string)       (* __import__(config['module'], ...) *)
| NewControlPanel (with_algorithm_change : bool)
| NewVisualizer (cls : string) (arr : list Z)
| AssignOnComplete                   (* visualizer.on_complete = self._on_sort_complete *)
| AssignResumeFlags                  (* visualizer.is_paused = False; visualizer.is_running = True *)
| CallDraw
| CallStop
| CallSort (algorithm : option string)
| CallRunVisualization (g : Producer)
| CallReset (arr : option (list Z))
| CallStep
| CallSetDelay (ms : Z)
| CallSetStepMode (b : bool)
| CallSetRunningState (b : bool)
| CanvasDeleteAll
| CanvasCreateText (text : string).

(** ** The environment of the process *)

(** What lies outside [main.py]: which modules can be imported and what
    they define, the random data generator of [core.controls], the table
    [BarVisualizer.ALGORITHM_NAMES], the generator functions of the
    visualizer classes, and the defaults of the absent constructors. *)
Record Env := {
  importable : string -> bool;
  module_defines : string -> string -> bool;
  generate_random_data : Z -> list Z;
  ALGORITHM_NAMES : gmap string string;
  make_producer : string -> option string -> list Z -> Producer;
  initial_delay : Z;
  initial_algorithm : string
}.

(** ** Application state *)

(** The module global [MODE_CONFIGS] ([registry]) and the attributes of
    the [SortingVisualizerApp] instance.  [visualizer = None] is Python's
    [None], the only falsy value the attribute takes; [controls = None]
    stands for the attribute not having been assigned yet ([__init__]
    does not create it); [title_label] and [status_bar] hold the text
    shown. *)
Record App := mkApp {
  registry : gmap string ModeConfig;
  current_mode : option string;
  visualizer : option Visualizer.t;
  data : list Z;
  title_label : string;
  status_bar : string;
  controls : option ControlPanel.t;
  canvas : Canvas;
  log : list Event
}.

Definition set_current_mode (x : option string) (s : App) : App :=
  mkApp (registry s) x (visualizer s) (data s) (title_label s) (status_bar s)
        (controls s) (canvas s) (log s).
Definition set_visualizer (x : option Visualizer.t) (s : App) : App :=
  mkApp (registry s) (current_mode s) x (data s) (title_label s) (status_bar s)
        (controls s) (canvas s) (log s).
Definition set_data (x : list Z) (s : App) : App :=
  mkApp (registry s) (current_mode s) (visualizer s) x (title_label s)
        (status_bar s) (controls s) (canvas s) (log s).
Definition set_title_label (x : string) (s : App) : App :=
  mkApp (registry s) (current_mode s) (visualizer s) (data s) x (status_bar s)
        (controls s) (canvas s) (log s).
Definition set_status_bar (x : string) (s : App) : App :=
  mkApp (registry s) (current_mode s) (visualizer s) (data s) (title_label s) x
        (controls s) (canvas s) (log s).
Definition set_controls (x : option ControlPanel.t) (s : App) : App :=
  mkApp (registry s) (current_mode s) (visualizer s) (data s) (title_label s)
        (status_bar s) x (canvas s) (log s).
Definition set_canvas (x : Canvas) (s : App) : App :=
  mkApp (registry s) (current_mode s) (visualizer s) (data s) (title_label s)
        (status_bar s) (controls s) x (log s).
Definition emit (e : Event) (s : App) : App :=
  mkApp (registry s) (current_mode s) (visualizer s) (data s) (title_label s)
        (status_bar s) (controls s) (canvas s) (log s ++ [e]).

(** ** Outcomes *)

(** The exceptions a handler can let escape: [self.controls] read before
    it was ever assigned, or a class missing from an imported module
    ([AttributeError]); [MODE_CONFIGS[self.current_mode]] with a mode
    that is not a key ([KeyError]). *)
Inductive Exception := AttributeError | KeyError.

(** A handler either returns or raises; in both cases the assignments
    made so far stay. *)
Inductive Outcome :=
| Done (s : App)
| Raised (e : Exception) (s : App).

Definition state_of (o : Outcome) : App :=
  match o with Done s => s | Raised _ s => s end.

Definition returns (o : Outcome) : bool :=
  match o with Done _ => true | Raised _ _ => false end.

(** [MODE_CONFIGS[self.current_mode]] *)
Definition current_config (s : App) : option ModeConfig :=
  match current_mode s with
  | Some m => registry s !! m
  | None => None
  end.

(** ** Handlers of [SortingVisualizerApp] *)

Definition newline : string := String (Ascii.ascii_of_nat 10) EmptyString.

(** [_update_status] (main.py, lines 139-141) *)
Definition _update_status (message : string) (s : App) : App :=
  emit (StatusConfig message) (set_status_bar message s).

(** [_stop_current] (main.py, lines 205-208 and again 252-255) *)
Definition _stop_current (s : App) : App :=
  match visualizer s with
  | Some v => emit CallStop (set_visualizer (Some (Visualizer.stop v)) s)
  | None => s
  end.

(** [_show_not_implemented] (main.py, lines 192-203 and again 239-250);
    the coordinates of the text item are geometry and left out. *)
Definition _show_not_implemented (name : string) (s : App) : App :=
  let text := name +:+ " 시각화" +:+ newline +:+ "(구현 예정)" in
  let s := emit CanvasDeleteAll (set_canvas CanvasEmpty s) in
  let s := emit (CanvasCreateText text) (set_canvas (CanvasText text) s) in
  _update_status (name +:+ " - 아직 구현되지 않았습니다") s.

(** [_on_sort_complete] (main.py, lines 329-332) *)
Definition _on_sort_complete (s : App) : Outcome :=
  match controls s with
  | None => Raised AttributeError s
  | Some c =>
      let s := emit (CallSetRunningState false)
                 (set_controls (Some (ControlPanel.set_running_state false c)) s) in
      Done (_update_status "정렬 완료!" s)
  end.

(** Modelled from the spec: the visualizer invoking the completion
    callback (sections 4.1 and 4.3), that is, whatever was stored in its
    [on_complete] attribute. *)
Definition invoke_on_complete (v : Visualizer.t) (s : App) : Outcome :=
  match Visualizer.on_complete v with
  | Some BoundOnSortComplete => _on_sort_complete s
  | None => Done s
  end.

(** The [try] block of [_switch_to_mode] (main.py, lines 158-187) once
    the class has been found: control panel, data, visualizer, callback,
    first draw, status. *)
Definition install_visualizer (env : Env) (config : ModeConfig) (s : App) : App :=
  let with_change := has_algorithm_selection config in
  let s := emit (NewControlPanel with_change)
             (set_controls
                (Some (ControlPanel.new (initial_algorithm env) with_change)) s) in
  let max_size := max_size config in
  let data_to_use := data_to_use max_size (data s) in
  let v := Visualizer.new (initial_delay env) (visualizer_class config) data_to_use in
  let s := emit (NewVisualizer (visualizer_class config) data_to_use)
             (set_visualizer (Some v) s) in
  let v := Visualizer.set_on_complete (Some BoundOnSortComplete) v in
  let s := emit AssignOnComplete (set_visualizer (Some v) s) in
  let s := emit CallDraw (set_canvas (Visualizer.draw v) s) in
  _update_status
    (title config +:+ " | 데이터 크기: " +:+ pretty (length data_to_use)) s.

(** [_switch_to_mode] (main.py, lines 143-190).  [if config['module']]
    is false for [None] and for the empty string. *)
Definition _switch_to_mode (env : Env) (mode : string) (s : App) : Outcome :=
  match registry s !! mode with
  | None => Done s
  | Some config =>
      let s := _stop_current s in
      let s := set_current_mode (Some mode) s in
      let s := emit (TitleConfig (title config)) (set_title_label (title config) s) in
      let s := emit DestroyControlWidgets s in
      match module config with
      | Some (String a m as name) =>
          let s := emit (ImportModule name) s in
          if importable env name then
            if module_defines env name (visualizer_class config)
            then Done (install_visualizer env config s)
            else Raised AttributeError s
          else Done (_show_not_implemented (title config) s)
      | _ => Done (install_visualizer env config s)
      end
  end.

(** [_switch_to_heap] (main.py, lines 210-237); no caller in the file.
    [from visualizers.heap_visualizer import HeapSortVisualizer] raises
    [ImportError] both for a missing module and for a missing name. *)
Definition _switch_to_heap (env : Env) (s : App) : Outcome :=
  let s := _stop_current s in
  let s := set_current_mode (Some "heap") s in
  let s := emit (TitleConfig "힙 정렬 (Heap Sort)")
             (set_title_label "힙 정렬 (Heap Sort)" s) in
  let s := emit DestroyControlWidgets s in
  let s := emit (ImportModule "visualizers.heap_visualizer") s in
  if importable env "visualizers.heap_visualizer"
     && module_defines env "visualizers.heap_visualizer" "HeapSortVisualizer"
  then
    let s := emit (NewControlPanel false)
               (set_controls (Some (ControlPanel.new (initial_algorithm env) false)) s) in
    let arr := slice_to 10 (data s) in
    let v := Visualizer.new (initial_delay env) "HeapSortVisualizer" arr in
    let s := emit (NewVisualizer "HeapSortVisualizer" arr) (set_visualizer (Some v) s) in
    let v := Visualizer.set_on_complete (Some BoundOnSortComplete) v in
    let s := emit AssignOnComplete (set_visualizer (Some v) s) in
    Done (emit CallDraw (set_canvas (Visualizer.draw v) s))
  else Done (_show_not_implemented "힙 정렬 (Heap Sort)" s).

(** [_resume_visualization] (main.py, lines 281-284); a generator object
    is always truthy, so the test is on its presence. *)
Definition _resume_visualization (s : App) : App :=
  match visualizer s with
  | Some v =>
      match Visualizer._current_generator v with
      | Some g =>
          emit (CallRunVisualization g)
            (set_visualizer (Some (Visualizer._run_visualization g v)) s)
      | None => s
      end
  | None => s
  end.

(** [_start_sort] (main.py, lines 257-279) *)
Definition _start_sort (env : Env) (s : App) : Outcome :=
  match visualizer s with
  | None => Done s
  | Some v =>
      match controls s with
      | None => Raised AttributeError s
      | Some c =>
          let b := ControlPanel.get_step_mode c in
          let v := Visualizer.set_step_mode b v in
          let s := emit (CallSetStepMode b) (set_visualizer (Some v) s) in
          let c := ControlPanel.set_running_state true c in
          let s := emit (CallSetRunningState true) (set_controls (Some c) s) in
          if Visualizer.can_resume v then
            let v := Visualizer.set_is_running true (Visualizer.set_is_paused false v) in
            let s := emit AssignResumeFlags (set_visualizer (Some v) s) in
            let s := _resume_visualization s in
            match current_config s with
            | None => Raised KeyError s
            | Some config => Done (_update_status ("재개됨: " +:+ title config) s)
            end
          else
            match current_config s with
            | None => Raised KeyError s
            | Some config =>
                if has_algorithm_selection config then
                  let algorithm := ControlPanel.algorithm_var c in
                  let v := Visualizer.sort (make_producer env) (Some algorithm) v in
                  let s := emit (CallSort (Some algorithm)) (set_visualizer (Some v) s) in
                  let algo_name := default algorithm (ALGORITHM_NAMES env !! algorithm) in
                  Done (_update_status ("실행 중: " +:+ algo_name) s)
                else
                  let v := Visualizer.sort (make_producer env) None v in
                  let s := emit (CallSort None) (set_visualizer (Some v) s) in
                  Done (_update_status ("실행 중: " +:+ title config) s)
            end
      end
  end.

(** [_stop_sort] (main.py, lines 286-291) *)
Definition _stop_sort (s : App) : Outcome :=
  match visualizer s with
  | None => Done s
  | Some v =>
      let s := emit CallStop (set_visualizer (Some (Visualizer.stop v)) s) in
      match controls s with
      | None => Raised AttributeError s
      | Some c =>
          let s := emit (CallSetRunningState false)
                     (set_controls (Some (ControlPanel.set_running_state false c)) s) in
          Done (_update_status "일시정지됨 (시작 버튼으로 재개)" s)
      end
  end.

(** [_reset_sort] (main.py, lines 293-298); the size in the status text
    is [len(self.visualizer.data)], read after [reset()]. *)
Definition _reset_sort (s : App) : Outcome :=
  match visualizer s with
  | None => Done s
  | Some v =>
      let '(v, cv) := Visualizer.reset None v in
      let s := emit (CallReset None) (set_canvas cv (set_visualizer (Some v) s)) in
      match controls s with
      | None => Raised AttributeError s
      | Some c =>
          let s := emit (CallSetRunningState false)
                     (set_controls (Some (ControlPanel.set_running_state false c)) s) in
          Done (_update_status
                  ("리셋됨 | 데이터 크기: " +:+ pretty (length (Visualizer.data v))) s)
      end
  end.

(** [_step_sort] (main.py, lines 300-303); a step that finds the
    producer exhausted makes the visualizer call [on_complete]. *)
Definition _step_sort (s : App) : Outcome :=
  match visualizer s with
  | None => Done s
  | Some v =>
      let '(v, cv, fired) := Visualizer.step v (canvas s) in
      let s := emit CallStep (set_canvas cv (set_visualizer (Some v) s)) in
      if fired then invoke_on_complete v s else Done s
  end.

(** [_change_speed] (main.py, lines 305-308) *)
Definition _change_speed (speed : Z) (s : App) : Outcome :=
  match visualizer s with
  | None => Done s
  | Some v =>
      Done (emit (CallSetDelay speed)
              (set_visualizer (Some (Visualizer.set_delay speed v)) s))
  end.

(** [_generate_data] (main.py, lines 310-321) *)
Definition _generate_data (env : Env) (size : Z) (s : App) : Outcome :=
  let s := set_data (generate_random_data env size) s in
  match visualizer s with
  | None => Done s
  | Some v =>
      match current_config s with
      | None => Raised KeyError s
      | Some config =>
          let max_size := max_size config in
          let data_to_use := data_to_use max_size (data s) in
          let '(v, cv) := Visualizer.reset (Some data_to_use) v in
          let s := emit (CallReset (Some data_to_use))
                     (set_canvas cv (set_visualizer (Some v) s)) in
          Done (_update_status
                  ("새 데이터 생성됨 | 크기: " +:+ pretty (length data_to_use)) s)
      end
  end.

(** [_change_algorithm] (main.py, lines 323-327) *)
Definition _change_algorithm (env : Env) (algorithm : string) (s : App) : Outcome :=
  match visualizer s with
  | Some _ =>
      if decide (current_mode s = Some "basic") then
        let algo_name := default algorithm (ALGORITHM_NAMES env !! algorithm) in
        Done (_update_status ("알고리즘 변경: " +:+ algo_name) s)
      else Done s
  | None => Done s
  end.

(** The process right after the module body has run and [__init__]
    (main.py, lines 57-71) has assigned its attributes and built the
    title label and the status bar, before the first mode switch. *)
Definition created (env : Env) : App :=
  {| registry := MODE_CONFIGS;
     current_mode := None;
     visualizer := None;
     data := generate_random_data env DEFAULT_DATA_SIZE;
     title_label := "기본 정렬 알고리즘";
     status_bar := "준비됨 | 데이터 크기: 15";
     controls := None;
     canvas := CanvasEmpty;
     log := [] |}.

(** [__init__] (main.py, lines 57-74) *)
Definition __init__ (env : Env) : Outcome :=
  _switch_to_mode env "basic" (created env).

(** ** The event loop *)

(** Modelled from the spec: a timer callback of the Animation Driver
    (sections 4.3 and 5) firing on the active visualizer; on exhaustion
    the visualizer calls [on_complete]. *)
Definition timer_tick (s : App) : Outcome :=
  match visualizer s with
  | None => Done s
  | Some v =>
      let '(v, cv, fired) := Visualizer.tick v (canvas s) in
      let s := set_canvas cv (set_visualizer (Some v) s) in
      if fired then invoke_on_complete v s else Done s
  end.

(** What the Tk main loop can deliver: the menu entries, the callbacks
    given to the control panel, the two widgets of the panel the handlers
    read back, and the timer. *)
Inductive Intent :=
| SwitchMode (mode : string)
| Start
| Stop
| Reset
| Step
| SpeedChange (speed : Z)
| Generate (size : Z)
| SelectAlgorithm (algorithm : string)
| ToggleStepMode (b : bool)
| Tick.

(** Modelled from the spec: the control panel's optional callback
    [onAlgorithmChange(id)] (section 6).  Picking an algorithm stores it
    in [algorithm_var] and calls [on_algorithm_change] when the panel was
    built with one. *)
Definition select_algorithm (env : Env) (algorithm : string) (s : App) : Outcome :=
  match controls s with
  | None => Done s
  | Some c =>
      let s := set_controls (Some (ControlPanel.user_select_algorithm algorithm c)) s in
      if ControlPanel.on_algorithm_change c
      then _change_algorithm env algorithm s
      else Done s
  end.

(** Modelled from the spec: the step-mode box of the control panel
    (section 6), read back through [get_step_mode()]. *)
Definition toggle_step_mode (b : bool) (s : App) : Outcome :=
  match controls s with
  | None => Done s
  | Some c => Done (set_controls (Some (ControlPanel.user_set_step_mode b c)) s)
  end.

(** The wiring of the menu (main.py, lines 85-90) and of the control
    panel callbacks (main.py, lines 167-176). *)
Definition dispatch (env : Env) (i : Intent) (s : App) : Outcome :=
  match i with
  | SwitchMode mode => _switch_to_mode env mode s
  | Start => _start_sort env s
  | Stop => _stop_sort s
  | Reset => _reset_sort s
  | Step => _step_sort s
  | SpeedChange speed => _change_speed speed s
  | Generate size => _generate_data env size s
  | SelectAlgorithm algorithm => select_algorithm env algorithm s
  | ToggleStepMode b => toggle_step_mode b s
  | Tick => timer_tick s
  end.

(** Tk reports an exception raised by a callback and goes on with the
    next event. *)
Fixpoint run (env : Env) (intents : list Intent) (s : App) : App :=
  match intents with
  | [] => s
  | i :: rest => run env rest (state_of (dispatch env i s))
  end.

(** ** A sample environment *)

Module Sample.

(** Swap the first adjacent pair that is out of order. *)
Fixpoint first_swap (i : nat) (l : list Z) : option (nat * list Z) :=
  match l with
  | a :: (b :: r) as rest =>
      if (b <? a)%Z then Some (i, b :: a :: r)
      else match first_swap (S i) rest with
           | Some (j, rest') => Some (j, a :: rest')
           | None => None
           end
  | _ => None
  end.

Fixpoint swaps (fuel : nat) (l : list Z) : Producer :=
  match fuel with
  | O => []
  | S fuel =>
      match first_swap 0 l with
      | Some (i, l') =>
          {| highlight := [i; S i]; snapshot := l' |} :: swaps fuel l'
      | None => []
      end
  end.

Definition numbers (size : Z) : list Z :=
  (fun i => (i * 7 + 3) `mod` 50 + 1)%Z <$> seqZ 0 size.

(** Every visualizer module is installed. *)
Definition env : Env :=
  {| importable := fun _ => true;
     module_defines := fun _ _ => true;
     generate_random_data := numbers;
     ALGORITHM_NAMES := <[ "bubble" := "Bubble Sort" ]> ∅;
     make_producer := fun _ _ arr => swaps (length arr * length arr) arr;
     initial_delay := 100;
     initial_algorithm := "bubble" |}.

(** The same, with the quick-sort module missing. *)
Definition env_without_quick : Env :=
  {| importable := fun name =>
       negb (String.eqb name "visualizers.quick_visualizer");
     module_defines := fun _ _ => true;
     generate_random_data := numbers;
     ALGORITHM_NAMES := <[ "bubble" := "Bubble Sort" ]> ∅;
     make_producer := fun _ _ arr => swaps (length arr * length arr) arr;
     initial_delay := 100;
     initial_algorithm := "bubble" |}.

(** The application after start-up, in basic mode. *)
Definition started : App := state_of (__init__ env).

(** A sort in basic mode that ran for two ticks and was paused. *)
Definition paused : App := run env [Start; Tick; Tick; Stop] started.

(** A sort in basic mode that is running, two ticks in. *)
Definition running : App := run env [Start; Tick; Tick] started.

(** The application after the menu entry for quick sort. *)
Definition in_quick : App := run env [SwitchMode "quick"] started.

(** The entries of ['basic'] and ['quick'] in [MODE_CONFIGS]. *)
Definition basic_config : ModeConfig :=
  {| title := "기본 정렬 알고리즘";
     visualizer_class := "BarVisualizer";
     max_size := None;
     has_algorithm_selection := true;
     module := None |}.
Definition quick_config : ModeConfig :=
  {| title := "퀵 정렬 (Quick Sort)";
     visualizer_class := "QuickSortVisualizer";
     max_size := Some QUICK_SORT_MAX_SIZE;
     has_algorithm_selection := false;
     module := Some "visualizers.quick_visualizer" |}.

End Sample.

(** ** Observations on runs *)

(** The events a handler added to the log. *)
Definition emitted (before after : App) : list Event :=
  drop (length (log before)) (log after).

(** The array an event hands to a visualizer: the argument of the
    constructor or of [reset(new_array)]. *)
Definition handed_to_visualizer (e : Event) : option (list Z) :=
  match e with
  | NewVisualizer _ arr => Some arr
  | CallReset (Some arr) => Some arr
  | _ => None
  end.

(** The calls by which a mode switch is described: stopping, building,
    wiring and drawing a visualizer, and writing title and status. *)
Definition switch_step (e : Event) : bool :=
  match e with
  | CallStop | NewVisualizer _ _ | AssignOnComplete | CallDraw
  | TitleConfig _ | StatusConfig _ => true
  | _ => false
  end.

(** [stop()] is called on the current visualizer exactly when there is
    one. *)
Definition stop_calls (s : App) : list Event :=
  match visualizer s with Some _ => [CallStop] | None => [] end.

(** The visualizer class of [config] can be obtained: either it needs no
    import, or its module imports and defines it. *)
Definition loads (env : Env) (config : ModeConfig) : bool :=
  match module config with
  | Some (String _ _ as name) =>
      importable env name && module_defines env name (visualizer_class config)
  | _ => true
  end.

(** The import events of a switch to [config]. *)
Definition import_calls (config : ModeConfig) : list Event :=
  match module config with
  | Some (String _ _ as name) => [ImportModule name]
  | _ => []
  end.

(** ** Observations on the event loop *)

(** The modes of the menu entries of [_create_menu] (main.py, lines
    85-90), in the order of the menu. *)
Definition menu_modes : list string := ["basic"; "quick"; "merge"; "heap"].

(** The application is usable: the registry is the table of the source,
    a visualizer and a control panel are held, the current mode is
    registered and the title is the title of that mode. *)
Definition settled (s : App) : Prop :=
  registry s = MODE_CONFIGS
  /\ is_Some (visualizer s)
  /\ is_Some (controls s)
  /\ exists config, current_config s = Some config /\ title_label s = title config.

(** The calls by which a mode switch tears down and rebuilds the title,
    the control panel and the visualizer. *)
Definition rebuilds (e : Event) : bool :=
  match e with
  | TitleConfig _ | DestroyControlWidgets | ImportModule _
  | NewControlPanel _ | NewVisualizer _ _ | AssignOnComplete => true
  | _ => false
  end.

(** The menu entries among the intents. *)
Definition is_switch (i : Intent) : bool :=
  match i with SwitchMode _ => true | _ => false end.

(** [s'] is in the mode of [s]: same registry, current mode and title,
    a visualizer and a control panel held in the one exactly when held
    in the other, and nothing rebuilt in between. *)
Definition same_mode (s s' : App) : Prop :=
  registry s' = registry s
  /\ current_mode s' = current_mode s
  /\ title_label s' = title_label s
  /\ (is_Some (visualizer s') <-> is_Some (visualizer s))
  /\ (is_Some (controls s') <-> is_Some (controls s))
  /\ exists l, log s' = log s ++ l /\ forallb (fun e => negb (rebuilds e)) l = true.

(** The sample environment with a quick-sort module that imports but
    does not define [QuickSortVisualizer]. *)
Definition env_with_hollow_quick : Env :=
  {| importable := fun _ => true;
     module_defines := fun name _ =>
       negb (String.eqb name "visualizers.quick_visualizer");
     generate_random_data := Sample.numbers;
     ALGORITHM_NAMES := <[ "bubble" := "Bubble Sort" ]> ∅;
     make_producer := fun _ _ arr => Sample.swaps (length arr * length arr) arr;
     initial_delay := 100;
     initial_algorithm := "bubble" |}.

(** Normalise a goal about the log of a handler's result. *)
Ltac flatten_log := simpl; rewrite <- ?app_assoc; simpl.

(** Close a goal [same_mode s s'] once [s'] is an explicit update of
    [s]. *)
Ltac close_log :=
  first [ exists []; split; [symmetry; apply app_nil_r | reflexivity]
        | eexists; split; [flatten_log; reflexivity | reflexivity] ].

Ltac close_same_mode :=
  unfold same_mode; simpl;
  repeat match goal with
         | |- _ /\ _ => split
         | |- _ <-> _ => split; intros; eauto
         end; try done; try close_log.

(** * Properties *)

(** ** The registry literal *)

(** The four keys of [MODE_CONFIGS] and, for each, the fields the
    handlers read. *)
Lemma MODE_CONFIGS_entries (mode : string) (config : ModeConfig) :
  MODE_CONFIGS !! mode = Some config ->
  (mode = "basic" /\ max_size config = None
     /\ has_algorithm_selection config = true /\ module config = None
     /\ visualizer_class config = "BarVisualizer")
  \/ (mode = "quick" /\ max_size config = Some 8%Z
     /\ has_algorithm_selection config = false
     /\ module config = Some "visualizers.quick_visualizer"
     /\ visualizer_class config = "QuickSortVisualizer")
  \/ (mode = "merge" /\ max_size config = Some 8%Z
     /\ has_algorithm_selection config = false
     /\ module config = Some "visualizers.merge_visualizer"
     /\ visualizer_class config = "MergeSortVisualizer")
  \/ (mode = "heap" /\ max_size config = Some 10%Z
     /\ has_algorithm_selection config = false
     /\ module config = Some "visualizers.heap_visualizer"
     /\ visualizer_class config = "HeapSortVisualizer").
Proof.
  unfold MODE_CONFIGS. intros H.
  destruct (decide (mode = "basic")) as [->|Hb].
  { rewrite lookup_insert_eq in H. injection H as <-. left. done. }
  rewrite lookup_insert_ne in H by done.
  destruct (decide (mode = "quick")) as [->|Hq].
  { rewrite lookup_insert_eq in H. injection H as <-. right; left. done. }
  rewrite lookup_insert_ne in H by done.
  destruct (decide (mode = "merge")) as [->|Hm].
  { rewrite lookup_insert_eq in H. injection H as <-. do 2 right; left. done. }
  rewrite lookup_insert_ne in H by done.
  destruct (decide (mode = "heap")) as [->|Hh].
  { rewrite lookup_insert_eq in H. injection H as <-. do 3 right. done. }
  rewrite lookup_insert_ne in H by done.
  by rewrite lookup_empty in H.
Qed.

Lemma emitted_app (s s' : App) (l : list Event) :
  log s' = log s ++ l -> emitted s s' = l.
Proof. intros H. unfold emitted. rewrite H. apply drop_app_length. Qed.

(** ** C3: unknown modes *)

(** C3. For every mode identifier that is not a key of the registry,
    [_switch_to_mode] returns with the application exactly as it was:
    current mode, visualizer, dataset, title, controls, status and canvas
    are unchanged and no call at all (in particular no [stop()]) is
    made on a collaborator. *)
Theorem switch_to_unknown_mode_is_noop (env : Env) (mode : string) (s : App) :
  registry s !! mode = None ->
  _switch_to_mode env mode s = Done s /\ emitted s s = [].
Proof.
  intros H. unfold _switch_to_mode. rewrite H. split; [done|].
  apply emitted_app. by rewrite app_nil_r.
Qed.

Lemma switch_to_unknown_mode_is_noop_witness :
  registry Sample.running !! "radix" = None
  /\ _switch_to_mode Sample.env "radix" Sample.running = Done Sample.running
  /\ emitted Sample.running Sample.running = [].
Proof.
  split; [vm_compute; reflexivity|].
  apply (switch_to_unknown_mode_is_noop Sample.env "radix" Sample.running).
  vm_compute; reflexivity.
Defined.

(** ** Shape of a mode switch *)

(** A switch to a registered mode whose class loads: the complete
    result. *)
Lemma switch_loaded (env : Env) (mode : string) (config : ModeConfig) (s : App) :
  registry s !! mode = Some config ->
  loads env config = true ->
  let d := data_to_use (max_size config) (data s) in
  let status := title config +:+ " | 데이터 크기: " +:+ pretty (length d) in
  exists s',
    _switch_to_mode env mode s = Done s'
    /\ log s' = log s ++ stop_calls s
         ++ [TitleConfig (title config); DestroyControlWidgets]
         ++ import_calls config
         ++ [NewControlPanel (has_algorithm_selection config);
             NewVisualizer (visualizer_class config) d;
             AssignOnComplete; CallDraw; StatusConfig status]
    /\ visualizer s' =
         Some (Visualizer.set_on_complete (Some BoundOnSortComplete)
                 (Visualizer.new (initial_delay env) (visualizer_class config) d))
    /\ controls s' =
         Some (ControlPanel.new (initial_algorithm env) (has_algorithm_selection config))
    /\ canvas s' = CanvasBars d []
    /\ status_bar s' = status
    /\ title_label s' = title config
    /\ current_mode s' = Some mode
    /\ data s' = data s
    /\ registry s' = registry s.
Proof.
  intros Hreg Hload d status. unfold _switch_to_mode. rewrite Hreg.
  unfold loads in Hload. unfold import_calls.
  destruct (module config) as [[|a m]|].
  - eexists; split; [reflexivity|].
    unfold install_visualizer, _update_status, _stop_current, stop_calls.
    destruct (visualizer s); flatten_log; done.
  - apply andb_true_iff in Hload as [-> ->].
    eexists; split; [reflexivity|].
    unfold install_visualizer, _update_status, _stop_current, stop_calls.
    destruct (visualizer s); flatten_log; done.
  - eexists; split; [reflexivity|].
    unfold install_visualizer, _update_status, _stop_current, stop_calls.
    destruct (visualizer s); flatten_log; done.
Qed.

(** A switch to a registered mode whose module cannot be imported: the
    complete result. *)
Lemma switch_import_error (env : Env) (mode name : string) (config : ModeConfig)
    (s : App) :
  registry s !! mode = Some config ->
  module config = Some name -> name <> "" ->
  importable env name = false ->
  let text := title config +:+ " 시각화" +:+ newline +:+ "(구현 예정)" in
  let status := title config +:+ " - 아직 구현되지 않았습니다" in
  exists s',
    _switch_to_mode env mode s = Done s'
    /\ log s' = log s ++ stop_calls s
         ++ [TitleConfig (title config); DestroyControlWidgets;
             ImportModule name; CanvasDeleteAll; CanvasCreateText text;
             StatusConfig status]
    /\ visualizer s' = Visualizer.stop <$> visualizer s
    /\ controls s' = controls s
    /\ canvas s' = CanvasText text
    /\ status_bar s' = status
    /\ title_label s' = title config
    /\ current_mode s' = Some mode
    /\ data s' = data s
    /\ registry s' = registry s.
Proof.
  intros Hreg Hmod Hne Himp text status. unfold _switch_to_mode.
  rewrite Hreg, Hmod. destruct name as [|a m]; [done|]. rewrite Himp.
  eexists; split; [reflexivity|].
  unfold _show_not_implemented, _update_status, _stop_current, stop_calls.
  destruct (visualizer s) eqn:Hv; flatten_log; rewrite ?Hv; done.
Qed.

(** ** C6: the steps of a mode switch *)

(** C6 (amended). A switch to a registered mode whose visualizer class
    can be loaded returns normally and performs, in this order: [stop()]
    on the current visualizer if there is one, the update of the title,
    the removal of the old control widgets, the import if the mode names a
    module, the construction of the control panel, the construction of
    the new visualizer from the dataset truncated to the mode's cap, the
    wiring of the completion callback, the first [draw()], and the update
    of the status line to the mode's title and the size of the truncated
    dataset. *)
Theorem switch_to_loadable_mode_sequence
    (env : Env) (mode : string) (config : ModeConfig) (s : App) :
  registry s !! mode = Some config ->
  loads env config = true ->
  let d := data_to_use (max_size config) (data s) in
  let status := title config +:+ " | 데이터 크기: " +:+ pretty (length d) in
  exists s',
    _switch_to_mode env mode s = Done s'
    /\ emitted s s' =
         stop_calls s
         ++ [TitleConfig (title config); DestroyControlWidgets]
         ++ import_calls config
         ++ [NewControlPanel (has_algorithm_selection config);
             NewVisualizer (visualizer_class config) d;
             AssignOnComplete; CallDraw; StatusConfig status]
    /\ List.filter switch_step (emitted s s') =
         stop_calls s
         ++ [TitleConfig (title config);
             NewVisualizer (visualizer_class config) d;
             AssignOnComplete; CallDraw; StatusConfig status]
    /\ visualizer s' =
         Some (Visualizer.set_on_complete (Some BoundOnSortComplete)
                 (Visualizer.new (initial_delay env) (visualizer_class config) d))
    /\ canvas s' = Visualizer.draw (Visualizer.new (initial_delay env)
                                      (visualizer_class config) d)
    /\ title_label s' = title config
    /\ status_bar s' = status.
Proof.
  intros Hreg Hload d status.
  destruct (switch_loaded env mode config s Hreg Hload)
    as (s' & Hrun & Hlog & Hv & _ & Hcv & Hst & Hti & _).
  exists s'. apply emitted_app in Hlog.
  repeat split; try done.
  rewrite Hlog. unfold stop_calls, import_calls.
  destruct (visualizer s); destruct (module config) as [[|a m]|]; reflexivity.
Qed.

Lemma switch_to_loadable_mode_sequence_witness :
  registry Sample.running !! "heap" =
    Some {| title := "힙 정렬 (Heap Sort)";
            visualizer_class := "HeapSortVisualizer";
            max_size := Some HEAP_SORT_MAX_SIZE;
            has_algorithm_selection := false;
            module := Some "visualizers.heap_visualizer" |}
  /\ exists s',
       _switch_to_mode Sample.env "heap" Sample.running = Done s'
       /\ List.filter switch_step (emitted Sample.running s') =
            [CallStop; TitleConfig "힙 정렬 (Heap Sort)";
             NewVisualizer "HeapSortVisualizer"
               [4; 11; 18; 25; 32; 39; 46; 3; 10; 17]%Z;
             AssignOnComplete; CallDraw;
             StatusConfig "힙 정렬 (Heap Sort) | 데이터 크기: 10"].
Proof.
  split; [vm_compute; reflexivity|].
  destruct (switch_to_loadable_mode_sequence Sample.env "heap"
              {| title := "힙 정렬 (Heap Sort)";
                 visualizer_class := "HeapSortVisualizer";
                 max_size := Some HEAP_SORT_MAX_SIZE;
                 has_algorithm_selection := false;
                 module := Some "visualizers.heap_visualizer" |}
              Sample.running)
    as (s' & Hrun & _ & Hsteps & _).
  - vm_compute; reflexivity.
  - vm_compute; reflexivity.
  - exists s'. split; [exact Hrun|]. rewrite Hsteps. vm_compute; reflexivity.
Defined.

(** C6 as described fails twice.  Switching to ['quick'] when its module
    cannot be imported builds, wires and draws no visualizer and reports
    no data size; and when the module is there, the title is written
    before the visualizer is built, not after the first draw. *)
Lemma switch_sequence_counterexample :
  let s := Sample.started in
  let described :=
    [CallStop;
     NewVisualizer "QuickSortVisualizer" (take 8 (data s));
     AssignOnComplete; CallDraw;
     TitleConfig "퀵 정렬 (Quick Sort)";
     StatusConfig "퀵 정렬 (Quick Sort) | 데이터 크기: 8"] in
  let missing := state_of (_switch_to_mode Sample.env_without_quick "quick" s) in
  let present := state_of (_switch_to_mode Sample.env "quick" s) in
  is_Some (registry s !! "quick")
  /\ List.filter switch_step (emitted s missing) =
       [CallStop; TitleConfig "퀵 정렬 (Quick Sort)";
        StatusConfig "퀵 정렬 (Quick Sort) - 아직 구현되지 않았습니다"]
  /\ List.filter switch_step (emitted s missing) <> described
  /\ List.filter switch_step (emitted s present) =
       [CallStop; TitleConfig "퀵 정렬 (Quick Sort)";
        NewVisualizer "QuickSortVisualizer" (take 8 (data s));
        AssignOnComplete; CallDraw;
        StatusConfig "퀵 정렬 (Quick Sort) | 데이터 크기: 8"]
  /\ List.filter switch_step (emitted s present) <> described.
Proof.
  cbv zeta. split; [vm_compute; eexists; reflexivity|].
  split; [vm_compute; reflexivity|].
  split; [vm_compute; discriminate|].
  split; [vm_compute; reflexivity|].
  vm_compute; discriminate.
Qed.

(** ** C4: a visualizer module that cannot be imported *)

(** C4 (amended). When the import of a registered mode's visualizer
    module raises [ImportError], the switch returns normally: the canvas
    shows the "not implemented" placeholder and the status line the "not
    implemented" message.  By then the switch has called [stop()] on the
    previous visualizer if there was one, has made the requested mode the
    current mode, has written its title and has destroyed the control
    widgets; the handler of the failure adds only the placeholder and the
    status text.  The visualizer object and the control panel object are
    not replaced, and the dataset and the registry are untouched. *)
Theorem failed_import_shows_placeholder
    (env : Env) (mode name : string) (config : ModeConfig) (s : App) :
  registry s !! mode = Some config ->
  module config = Some name -> name <> "" ->
  importable env name = false ->
  let text := title config +:+ " 시각화" +:+ newline +:+ "(구현 예정)" in
  let status := title config +:+ " - 아직 구현되지 않았습니다" in
  exists s',
    _switch_to_mode env mode s = Done s'
    /\ canvas s' = CanvasText text
    /\ status_bar s' = status
    /\ emitted s s' =
         stop_calls s
         ++ [TitleConfig (title config); DestroyControlWidgets;
             ImportModule name; CanvasDeleteAll; CanvasCreateText text;
             StatusConfig status]
    /\ current_mode s' = Some mode
    /\ title_label s' = title config
    /\ visualizer s' = Visualizer.stop <$> visualizer s
    /\ controls s' = controls s
    /\ data s' = data s
    /\ registry s' = registry s.
Proof.
  intros Hreg Hmod Hne Himp text status.
  destruct (switch_import_error env mode name config s Hreg Hmod Hne Himp)
    as (s' & Hrun & Hlog & Hv & Hc & Hcv & Hst & Hti & Hm & Hd & Hr).
  exists s'. apply emitted_app in Hlog. repeat split; done.
Qed.

Lemma failed_import_shows_placeholder_witness :
  let config := {| title := "퀵 정렬 (Quick Sort)";
                   visualizer_class := "QuickSortVisualizer";
                   max_size := Some QUICK_SORT_MAX_SIZE;
                   has_algorithm_selection := false;
                   module := Some "visualizers.quick_visualizer" |} in
  (registry Sample.running !! "quick" = Some config
   /\ module config = Some "visualizers.quick_visualizer"
   /\ "visualizers.quick_visualizer" <> ""
   /\ importable Sample.env_without_quick "visualizers.quick_visualizer" = false)
  /\ exists s',
       _switch_to_mode Sample.env_without_quick "quick" Sample.running = Done s'
       /\ status_bar s' = "퀵 정렬 (Quick Sort) - 아직 구현되지 않았습니다"
       /\ current_mode s' = Some "quick"
       /\ controls s' = controls Sample.running.
Proof.
  cbv zeta.
  assert (H1 : registry Sample.running !! "quick" =
               Some {| title := "퀵 정렬 (Quick Sort)";
                       visualizer_class := "QuickSortVisualizer";
                       max_size := Some QUICK_SORT_MAX_SIZE;
                       has_algorithm_selection := false;
                       module := Some "visualizers.quick_visualizer" |})
    by (vm_compute; reflexivity).
  assert (H2 : "visualizers.quick_visualizer" <> "") by discriminate.
  assert (H3 : importable Sample.env_without_quick
                 "visualizers.quick_visualizer" = false)
    by (vm_compute; reflexivity).
  split; [repeat split; assumption|].
  destruct (failed_import_shows_placeholder Sample.env_without_quick "quick"
              "visualizers.quick_visualizer" _ Sample.running H1 eq_refl H2 H3)
    as (s' & Hrun & _ & Hst & _ & Hm & _ & _ & Hc & _).
  exists s'. repeat split; assumption.
Defined.

(** C4 as stated fails.  With a sort running in basic mode and the
    quick-sort module missing, the switch to ['quick'] ends in the
    placeholder, yet the current mode is now ['quick'], the title is the
    quick-sort title, the running visualizer has been stopped and the
    control widgets have been destroyed. *)
Lemma failed_import_counterexample :
  let s := Sample.running in
  let s' := state_of (_switch_to_mode Sample.env_without_quick "quick" s) in
  returns (_switch_to_mode Sample.env_without_quick "quick" s) = true
  /\ status_bar s' = "퀵 정렬 (Quick Sort) - 아직 구현되지 않았습니다"
  /\ current_mode s = Some "basic" /\ current_mode s' = Some "quick"
  /\ (Visualizer.is_running <$> visualizer s) = Some true
  /\ (Visualizer.is_running <$> visualizer s') = Some false
  /\ title_label s' <> title_label s
  /\ DestroyControlWidgets ∈ emitted s s'
  /\ ~ (current_mode s' = current_mode s
        /\ visualizer s' = visualizer s
        /\ title_label s' = title_label s
        /\ emitted s s' = [CanvasDeleteAll;
                           CanvasCreateText (title_label s' +:+ " 시각화"
                                             +:+ newline +:+ "(구현 예정)");
                           StatusConfig (status_bar s')]).
Proof.
  cbv zeta.
  split; [vm_compute; reflexivity|].
  split; [vm_compute; reflexivity|].
  split; [vm_compute; reflexivity|].
  split; [vm_compute; reflexivity|].
  split; [vm_compute; reflexivity|].
  split; [vm_compute; reflexivity|].
  split; [vm_compute; discriminate|].
  split.
  - apply list_elem_of_In. vm_compute. tauto.
  - intros (Hm & _). vm_compute in Hm. discriminate.
Qed.

(** ** Shape of a data regeneration *)

Lemma generate_with_visualizer
    (env : Env) (size : Z) (s : App) (v : Visualizer.t) (config : ModeConfig) :
  visualizer s = Some v ->
  current_config s = Some config ->
  let generated := generate_random_data env size in
  let d := data_to_use (max_size config) generated in
  let status := "새 데이터 생성됨 | 크기: " +:+ pretty (length d) in
  exists s',
    _generate_data env size s = Done s'
    /\ log s' = log s ++ [CallReset (Some d); StatusConfig status]
    /\ data s' = generated
    /\ visualizer s' = Some (Visualizer.reset (Some d) v).1
    /\ canvas s' = CanvasBars d []
    /\ status_bar s' = status
    /\ current_mode s' = current_mode s
    /\ registry s' = registry s.
Proof.
  intros Hv Hc generated d status. unfold _generate_data.
  unfold current_config in *. simpl. rewrite Hv.
  destruct (current_mode s) as [m|] eqn:Hm; [|done]. rewrite Hc. simpl.
  eexists; split; [reflexivity|]. flatten_log. rewrite ?Hm. done.
Qed.

Lemma generate_stores_dataset (env : Env) (size : Z) (s : App) :
  data (state_of (_generate_data env size s)) = generate_random_data env size
  /\ registry (state_of (_generate_data env size s)) = registry s.
Proof.
  unfold _generate_data, current_config. simpl.
  destruct (visualizer s); [|done].
  destruct (current_mode s) as [m|]; [|done].
  destruct (registry s !! m); done.
Qed.

Lemma data_to_use_cap (n : positive) (l : list Z) :
  data_to_use (Some (Z.pos n)) l = take (Pos.to_nat n) l.
Proof. reflexivity. Qed.

(** ** C1: the dataset handed to the visualizer *)

(** C1. With the registry of the source, every mode switch that builds a
    visualizer and every data regeneration hands the visualizer the
    dataset truncated to the cap of the mode: the first 8 elements at
    most in ['quick'] and ['merge'], the first 10 at most in ['heap'],
    the whole dataset in ['basic'].  Switching to ['quick'] with 15
    elements hands over exactly the first 8. *)
Theorem dataset_truncated_to_mode_cap
    (env : Env) (mode : string) (config : ModeConfig) (s : App) :
  registry s = MODE_CONFIGS ->
  MODE_CONFIGS !! mode = Some config ->
  let cap := data_to_use (max_size config) in
  (* what the cap of each mode is *)
  (forall l : list Z,
     (mode = "quick" \/ mode = "merge" -> cap l = take 8 l /\ length (cap l) <= 8)
     /\ (mode = "heap" -> cap l = take 10 l /\ length (cap l) <= 10)
     /\ (mode = "basic" -> cap l = l))
  (* a switch to [mode] *)
  /\ (loads env config = true ->
      exists s',
        _switch_to_mode env mode s = Done s'
        /\ omap handed_to_visualizer (emitted s s') = [cap (data s)]
        /\ (Visualizer.data <$> visualizer s') = Some (cap (data s)))
  (* a regeneration while in [mode] *)
  /\ (forall (size : Z) (v : Visualizer.t),
        visualizer s = Some v -> current_mode s = Some mode ->
        exists s',
          _generate_data env size s = Done s'
          /\ omap handed_to_visualizer (emitted s s') =
               [cap (generate_random_data env size)]
          /\ (Visualizer.data <$> visualizer s') =
               Some (cap (generate_random_data env size)))
  (* the scenario of the specification *)
  /\ (mode = "quick" -> length (data s) = 15 -> loads env config = true ->
      exists s',
        _switch_to_mode env mode s = Done s'
        /\ omap handed_to_visualizer (emitted s s') = [take 8 (data s)]
        /\ length (take 8 (data s)) = 8).
Proof.
  intros Hreg Hcfg cap.
  assert (Hcaps : forall l : list Z,
     (mode = "quick" \/ mode = "merge" -> cap l = take 8 l /\ length (cap l) <= 8)
     /\ (mode = "heap" -> cap l = take 10 l /\ length (cap l) <= 10)
     /\ (mode = "basic" -> cap l = l)).
  { intros l. unfold cap.
    destruct (MODE_CONFIGS_entries mode config Hcfg)
      as [(-> & -> & _)|[(-> & -> & _)|[(-> & -> & _)|(-> & -> & _)]]];
      (split; [intros [?|?]|split; intros ?]); try discriminate;
      rewrite ?data_to_use_cap; simpl Pos.to_nat;
      try (split; [reflexivity|rewrite length_take; lia]); reflexivity. }
  assert (Hswitch : loads env config = true ->
      exists s',
        _switch_to_mode env mode s = Done s'
        /\ omap handed_to_visualizer (emitted s s') = [cap (data s)]
        /\ (Visualizer.data <$> visualizer s') = Some (cap (data s))).
  { intros Hload.
    assert (Hreg' : registry s !! mode = Some config) by (by rewrite Hreg).
    destruct (switch_loaded env mode config s Hreg' Hload)
      as (s' & Hrun & Hlog & Hv & _).
    exists s'. split; [done|]. apply emitted_app in Hlog. rewrite Hlog, Hv.
    split; [|done]. unfold stop_calls, import_calls.
    destruct (visualizer s); destruct (module config) as [[|a m]|]; reflexivity. }
  split; [exact Hcaps|]. split; [exact Hswitch|]. split.
  - intros size v Hv Hmode.
    assert (Hc : current_config s = Some config).
    { unfold current_config. by rewrite Hmode, Hreg. }
    destruct (generate_with_visualizer env size s v config Hv Hc)
      as (s' & Hrun & Hlog & _ & Hv' & _).
    exists s'. split; [done|]. apply emitted_app in Hlog. rewrite Hlog, Hv'.
    done.
  - intros Hq Hlen Hload. destruct (Hswitch Hload) as (s' & Hrun & Hh & _).
    destruct (Hcaps (data s)) as [Hqm _]. destruct (Hqm (or_introl Hq)) as [Hc _].
    exists s'. split; [done|]. rewrite Hh, Hc. split; [done|].
    rewrite length_take. lia.
Qed.

Lemma dataset_truncated_to_mode_cap_witness :
  (registry Sample.in_quick = MODE_CONFIGS
   /\ MODE_CONFIGS !! "quick" = Some Sample.quick_config
   /\ loads Sample.env Sample.quick_config = true
   /\ length (data Sample.in_quick) = 15
   /\ current_mode Sample.in_quick = Some "quick"
   /\ is_Some (visualizer Sample.in_quick))
  /\ (exists s',
        _switch_to_mode Sample.env "quick" Sample.in_quick = Done s'
        /\ omap handed_to_visualizer (emitted Sample.in_quick s') =
             [[4; 11; 18; 25; 32; 39; 46; 3]%Z])
  /\ (exists s',
        _generate_data Sample.env 12 Sample.in_quick = Done s'
        /\ omap handed_to_visualizer (emitted Sample.in_quick s') =
             [[4; 11; 18; 25; 32; 39; 46; 3]%Z]).
Proof.
  assert (H1 : registry Sample.in_quick = MODE_CONFIGS)
    by (vm_compute; reflexivity).
  assert (H2 : MODE_CONFIGS !! "quick" = Some Sample.quick_config)
    by (vm_compute; reflexivity).
  assert (H3 : loads Sample.env Sample.quick_config = true)
    by (vm_compute; reflexivity).
  assert (H4 : length (data Sample.in_quick) = 15)
    by (vm_compute; reflexivity).
  assert (H5 : current_mode Sample.in_quick = Some "quick")
    by (vm_compute; reflexivity).
  destruct (visualizer Sample.in_quick) as [v|] eqn:H6;
    [|vm_compute in H6; discriminate].
  split; [repeat split; eauto|].
  destruct (dataset_truncated_to_mode_cap Sample.env "quick"
              Sample.quick_config Sample.in_quick H1 H2)
    as (_ & _ & Hgen & Hscenario).
  split.
  - destruct (Hscenario eq_refl H4 H3) as (s' & Hrun & Hh & _).
    exists s'. split; [exact Hrun|]. rewrite Hh. vm_compute; reflexivity.
  - destruct (Hgen 12%Z v H6 H5) as (s' & Hrun & Hh & _).
    exists s'. split; [exact Hrun|]. rewrite Hh. vm_compute; reflexivity.
Defined.

(** ** C7: the size shown in the status line *)

Lemma reset_with_visualizer (s : App) (v : Visualizer.t) (c : ControlPanel.t) :
  visualizer s = Some v ->
  controls s = Some c ->
  let v' := (Visualizer.reset None v).1 in
  let status := "리셋됨 | 데이터 크기: " +:+ pretty (length (Visualizer.data v')) in
  exists s',
    _reset_sort s = Done s'
    /\ log s' = log s ++ [CallReset None; CallSetRunningState false;
                          StatusConfig status]
    /\ visualizer s' = Some v'
    /\ controls s' = Some (ControlPanel.set_running_state false c)
    /\ status_bar s' = status
    /\ current_mode s' = current_mode s
    /\ registry s' = registry s
    /\ data s' = data s.
Proof.
  intros Hv Hc v' status. unfold _reset_sort. rewrite Hv. simpl. rewrite Hc.
  eexists; split; [reflexivity|]. flatten_log. done.
Qed.

(** C7. Each time a handler writes a data size to the status line, the
    number is the length of the array held by the visualizer that is
    active when the handler returns: after a mode switch that builds a
    visualizer, after a reset, after a data regeneration, and at the end
    of [__init__]. *)
Theorem status_size_is_visualizer_length (env : Env) (s : App) :
  (forall (mode : string) (config : ModeConfig),
     registry s !! mode = Some config -> loads env config = true ->
     exists s' v',
       _switch_to_mode env mode s = Done s' /\ visualizer s' = Some v'
       /\ last (emitted s s') =
            Some (StatusConfig (title config +:+ " | 데이터 크기: "
                                +:+ pretty (length (Visualizer.data v'))))
       /\ status_bar s' = title config +:+ " | 데이터 크기: "
                          +:+ pretty (length (Visualizer.data v')))
  /\ (forall (v : Visualizer.t) (c : ControlPanel.t),
        visualizer s = Some v -> controls s = Some c ->
        exists s' v',
          _reset_sort s = Done s' /\ visualizer s' = Some v'
          /\ last (emitted s s') =
               Some (StatusConfig ("리셋됨 | 데이터 크기: "
                                   +:+ pretty (length (Visualizer.data v'))))
          /\ status_bar s' = "리셋됨 | 데이터 크기: "
                             +:+ pretty (length (Visualizer.data v')))
  /\ (forall (size : Z) (v : Visualizer.t) (config : ModeConfig),
        visualizer s = Some v -> current_config s = Some config ->
        exists s' v',
          _generate_data env size s = Done s' /\ visualizer s' = Some v'
          /\ last (emitted s s') =
               Some (StatusConfig ("새 데이터 생성됨 | 크기: "
                                   +:+ pretty (length (Visualizer.data v'))))
          /\ status_bar s' = "새 데이터 생성됨 | 크기: "
                             +:+ pretty (length (Visualizer.data v')))
  /\ (exists s' v',
        __init__ env = Done s' /\ visualizer s' = Some v'
        /\ status_bar s' = "기본 정렬 알고리즘 | 데이터 크기: "
                           +:+ pretty (length (Visualizer.data v'))).
Proof.
  split; [|split; [|split]].
  - intros mode config Hreg Hload.
    destruct (switch_loaded env mode config s Hreg Hload)
      as (s' & Hrun & Hlog & Hv & _ & _ & Hst & _).
    exists s'; eexists. split; [done|]. split; [exact Hv|].
    apply emitted_app in Hlog. rewrite Hlog, Hst. split; [|done].
    rewrite !last_app. reflexivity.
  - intros v c Hv Hc.
    destruct (reset_with_visualizer s v c Hv Hc)
      as (s' & Hrun & Hlog & Hv' & _ & Hst & _).
    exists s'; eexists. split; [done|]. split; [exact Hv'|].
    apply emitted_app in Hlog. rewrite Hlog, Hst. done.
  - intros size v config Hv Hc.
    destruct (generate_with_visualizer env size s v config Hv Hc)
      as (s' & Hrun & Hlog & _ & Hv' & _ & Hst & _).
    exists s'; eexists. split; [done|]. split; [exact Hv'|].
    apply emitted_app in Hlog. rewrite Hlog, Hst. done.
  - unfold __init__.
    destruct (switch_loaded env "basic" Sample.basic_config (created env))
      as (s' & Hrun & _ & Hv & _ & _ & Hst & _); [done..|].
    exists s'; eexists. split; [done|]. split; [exact Hv|]. exact Hst.
Qed.

Lemma status_size_is_visualizer_length_witness :
  (registry Sample.paused !! "quick" = Some Sample.quick_config
   /\ loads Sample.env Sample.quick_config = true
   /\ is_Some (visualizer Sample.paused) /\ is_Some (controls Sample.paused)
   /\ current_config Sample.paused = Some Sample.basic_config)
  /\ (exists s',
        _switch_to_mode Sample.env "quick" Sample.paused = Done s'
        /\ (length ∘ Visualizer.data <$> visualizer s') = Some 8
        /\ status_bar s' = "퀵 정렬 (Quick Sort) | 데이터 크기: 8")
  /\ (exists s',
        _reset_sort Sample.paused = Done s'
        /\ (length ∘ Visualizer.data <$> visualizer s') = Some 15
        /\ status_bar s' = "리셋됨 | 데이터 크기: 15")
  /\ (exists s',
        _generate_data Sample.env 20 Sample.paused = Done s'
        /\ (length ∘ Visualizer.data <$> visualizer s') = Some 20
        /\ status_bar s' = "새 데이터 생성됨 | 크기: 20").
Proof.
  assert (H1 : registry Sample.paused !! "quick" = Some Sample.quick_config)
    by (vm_compute; reflexivity).
  assert (H2 : loads Sample.env Sample.quick_config = true)
    by (vm_compute; reflexivity).
  destruct (visualizer Sample.paused) as [v|] eqn:H3;
    [|vm_compute in H3; discriminate].
  destruct (controls Sample.paused) as [c|] eqn:H4;
    [|vm_compute in H4; discriminate].
  assert (H5 : current_config Sample.paused = Some Sample.basic_config)
    by (vm_compute; reflexivity).
  split; [repeat split; eauto|].
  destruct (status_size_is_visualizer_length Sample.env Sample.paused)
    as (Hswitch & Hreset & Hgen & _).
  split; [|split].
  - destruct (Hswitch "quick" Sample.quick_config H1 H2)
      as (s' & v' & Hrun & Hv & _ & Hst).
    exists s'. split; [exact Hrun|]. rewrite Hst, Hv.
    vm_compute in Hrun. injection Hrun as <-.
    vm_compute in Hv. injection Hv as <-. split; vm_compute; reflexivity.
  - destruct (Hreset v c H3 H4) as (s' & v' & Hrun & Hv & _ & Hst).
    exists s'. split; [exact Hrun|]. rewrite Hst, Hv.
    vm_compute in Hrun. injection Hrun as <-.
    vm_compute in Hv. injection Hv as <-. split; vm_compute; reflexivity.
  - destruct (Hgen 20%Z v Sample.basic_config H3 H5)
      as (s' & v' & Hrun & Hv & _ & Hst).
    exists s'. split; [exact Hrun|]. rewrite Hst, Hv.
    vm_compute in Hrun. injection Hrun as <-.
    vm_compute in Hv. injection Hv as <-. split; vm_compute; reflexivity.
Defined.

(** ** C10: the master dataset *)

(** C10. A data regeneration always stores the whole generated dataset
    in the application's own [data] field, whether or not the handler
    goes on to reset a visualizer, and hands the active visualizer only
    the truncation to the cap of the current mode.  A later switch to a
    mode without a cap therefore hands over the whole generated dataset
    again. *)
Theorem regeneration_keeps_master_dataset (env : Env) (size : Z) (s : App) :
  let generated := generate_random_data env size in
  let s1 := state_of (_generate_data env size s) in
  data s1 = generated
  /\ (forall (v : Visualizer.t) (config : ModeConfig),
        visualizer s = Some v -> current_config s = Some config ->
        _generate_data env size s = Done s1
        /\ omap handed_to_visualizer (emitted s s1) =
             [data_to_use (max_size config) generated]
        /\ (Visualizer.data <$> visualizer s1) =
             Some (data_to_use (max_size config) generated)
        /\ data s1 = generated)
  /\ (forall (mode : string) (config : ModeConfig),
        registry s !! mode = Some config -> max_size config = None ->
        loads env config = true ->
        exists s2,
          _switch_to_mode env mode s1 = Done s2
          /\ omap handed_to_visualizer (emitted s1 s2) = [generated]
          /\ (Visualizer.data <$> visualizer s2) = Some generated
          /\ data s2 = generated).
Proof.
  intros generated s1.
  destruct (generate_stores_dataset env size s) as [Hdata Hreg'].
  fold s1 in Hdata, Hreg'. fold generated in Hdata.
  split; [exact Hdata|]. split.
  - intros v config Hv Hc.
    destruct (generate_with_visualizer env size s v config Hv Hc)
      as (s' & Hrun & Hlog & _ & Hv' & _).
    assert (s1 = s') as -> by (unfold s1; by rewrite Hrun).
    apply emitted_app in Hlog. rewrite Hlog, Hv'. done.
  - intros mode config Hreg Hmax Hload.
    assert (Hreg1 : registry s1 !! mode = Some config) by (by rewrite Hreg').
    destruct (switch_loaded env mode config s1 Hreg1 Hload)
      as (s2 & Hrun & Hlog & Hv & _ & _ & _ & _ & _ & Hd & _).
    exists s2. split; [done|]. apply emitted_app in Hlog.
    rewrite Hlog, Hv, Hd, Hmax, Hdata. simpl.
    split; [|done]. unfold stop_calls, import_calls.
    destruct (visualizer s1); destruct (module config) as [[|a m]|]; reflexivity.
Qed.

Lemma regeneration_keeps_master_dataset_witness :
  (is_Some (visualizer Sample.in_quick)
   /\ current_config Sample.in_quick = Some Sample.quick_config
   /\ registry Sample.in_quick !! "basic" = Some Sample.basic_config
   /\ max_size Sample.basic_config = None
   /\ loads Sample.env Sample.basic_config = true)
  /\ (let s1 := state_of (_generate_data Sample.env 12 Sample.in_quick) in
      omap handed_to_visualizer (emitted Sample.in_quick s1) =
        [[4; 11; 18; 25; 32; 39; 46; 3]%Z]
      /\ data s1 = [4; 11; 18; 25; 32; 39; 46; 3; 10; 17; 24; 31]%Z
      /\ exists s2,
           _switch_to_mode Sample.env "basic" s1 = Done s2
           /\ omap handed_to_visualizer (emitted s1 s2) =
                [[4; 11; 18; 25; 32; 39; 46; 3; 10; 17; 24; 31]%Z]).
Proof.
  destruct (visualizer Sample.in_quick) as [v|] eqn:H1;
    [|vm_compute in H1; discriminate].
  assert (H2 : current_config Sample.in_quick = Some Sample.quick_config)
    by (vm_compute; reflexivity).
  assert (H3 : registry Sample.in_quick !! "basic" = Some Sample.basic_config)
    by (vm_compute; reflexivity).
  assert (H4 : loads Sample.env Sample.basic_config = true)
    by (vm_compute; reflexivity).
  split; [repeat split; eauto|].
  destruct (regeneration_keeps_master_dataset Sample.env 12 Sample.in_quick)
    as (Hdata & Hgen & Hswitch).
  cbv zeta. split; [|split].
  - destruct (Hgen v Sample.quick_config H1 H2) as (_ & Hh & _).
    rewrite Hh. vm_compute; reflexivity.
  - rewrite Hdata. vm_compute; reflexivity.
  - destruct (Hswitch "basic" Sample.basic_config H3 eq_refl H4)
      as (s2 & Hrun & Hh & _).
    exists s2. split; [exact Hrun|]. rewrite Hh. vm_compute; reflexivity.
Defined.

(** ** Shape of a start *)

Lemma can_resume_generator (v : Visualizer.t) :
  Visualizer.can_resume v = true ->
  exists g, Visualizer._current_generator v = Some g /\ exhausted g = false
            /\ Visualizer.is_paused v = true.
Proof.
  unfold Visualizer.can_resume. destruct (Visualizer._current_generator v) as [g|].
  - intros H. exists g. destruct (exhausted g); [done|].
    destruct (Visualizer.is_paused v); done.
  - done.
Qed.

(** Start with a producer that can be resumed. *)
Lemma start_resume (env : Env) (s : App) (v : Visualizer.t) (c : ControlPanel.t)
    (config : ModeConfig) (g : Producer) :
  visualizer s = Some v ->
  controls s = Some c ->
  current_config s = Some config ->
  Visualizer.can_resume v = true ->
  Visualizer._current_generator v = Some g ->
  let b := ControlPanel.get_step_mode c in
  exists s',
    _start_sort env s = Done s'
    /\ log s' = log s ++
         [CallSetStepMode b; CallSetRunningState true; AssignResumeFlags;
          CallRunVisualization g; StatusConfig ("재개됨: " +:+ title config)]
    /\ visualizer s' =
         Some (Visualizer._run_visualization g
                 (Visualizer.set_is_running true
                    (Visualizer.set_is_paused false
                       (Visualizer.set_step_mode b v)))).
Proof.
  intros Hv Hc Hcfg Hres Hg b. unfold _start_sort. rewrite Hv, Hc.
  change (Visualizer.can_resume (Visualizer.set_step_mode
            (ControlPanel.get_step_mode c) v))
    with (Visualizer.can_resume v).
  rewrite Hres. unfold _resume_visualization. simpl. rewrite Hg.
  unfold current_config in *. simpl.
  destruct (current_mode s) as [m|]; [|done]. rewrite Hcfg.
  eexists. split; [reflexivity|]. flatten_log. done.
Qed.

(** Start with nothing to resume. *)
Lemma start_fresh (env : Env) (s : App) (v : Visualizer.t) (c : ControlPanel.t)
    (config : ModeConfig) :
  visualizer s = Some v ->
  controls s = Some c ->
  current_config s = Some config ->
  Visualizer.can_resume v = false ->
  let b := ControlPanel.get_step_mode c in
  let selected := ControlPanel.algorithm_var c in
  let argument :=
    if has_algorithm_selection config then Some selected else None in
  let shown :=
    if has_algorithm_selection config
    then default selected (ALGORITHM_NAMES env !! selected)
    else title config in
  exists s',
    _start_sort env s = Done s'
    /\ log s' = log s ++
         [CallSetStepMode b; CallSetRunningState true; CallSort argument;
          StatusConfig ("실행 중: " +:+ shown)]
    /\ visualizer s' =
         Some (Visualizer.sort (make_producer env) argument
                 (Visualizer.set_step_mode b v)).
Proof.
  intros Hv Hc Hcfg Hres b selected argument shown.
  unfold _start_sort. rewrite Hv, Hc.
  change (Visualizer.can_resume (Visualizer.set_step_mode
            (ControlPanel.get_step_mode c) v))
    with (Visualizer.can_resume v).
  rewrite Hres. unfold current_config in *. simpl.
  destruct (current_mode s) as [m|]; [|done]. rewrite Hcfg.
  unfold argument, shown.
  destruct (has_algorithm_selection config);
    (eexists; split; [reflexivity|]); flatten_log; done.
Qed.


(** The user picking an algorithm: the panel records it and nothing
    else but the status text changes. *)
Lemma select_algorithm_frame (env : Env) (algorithm : string) (s : App)
    (c : ControlPanel.t) :
  controls s = Some c ->
  exists s',
    select_algorithm env algorithm s = Done s'
    /\ visualizer s' = visualizer s
    /\ controls s' = Some (ControlPanel.user_select_algorithm algorithm c)
    /\ current_mode s' = current_mode s
    /\ registry s' = registry s
    /\ data s' = data s.
Proof.
  intros Hc. unfold select_algorithm. rewrite Hc.
  destruct (ControlPanel.on_algorithm_change c).
  - unfold _change_algorithm. simpl. destruct (visualizer s) eqn:Hv.
    + case_decide; eexists; (split; [reflexivity|]); simpl; rewrite ?Hv; done.
    + eexists; split; [reflexivity|]. simpl. rewrite ?Hv. done.
  - eexists; split; [reflexivity|]. done.
Qed.

(** ** C2: start resumes a suspended producer *)

(** C2. On the start intent, with a visualizer and a control panel in
    place and the current mode registered: when [can_resume()] is true
    the Orchestrator makes no call to [sort()]; it clears the pause, and
    passes the producer held in [_current_generator], which is not
    exhausted, to [_run_visualization], so that the visualizer keeps that
    same producer and its array.  When [can_resume()] is false it calls
    [sort()] once, and with the selected algorithm as argument exactly
    when the mode has algorithm selection, which in the registry of the
    source is basic mode only. *)
Theorem start_resumes_suspended_producer
    (env : Env) (s : App) (v : Visualizer.t) (c : ControlPanel.t)
    (config : ModeConfig) :
  visualizer s = Some v ->
  controls s = Some c ->
  current_config s = Some config ->
  let b := ControlPanel.get_step_mode c in
  let selected := ControlPanel.algorithm_var c in
  (Visualizer.can_resume v = true ->
   exists g s',
     Visualizer._current_generator v = Some g /\ exhausted g = false
     /\ _start_sort env s = Done s'
     /\ emitted s s' =
          [CallSetStepMode b; CallSetRunningState true; AssignResumeFlags;
           CallRunVisualization g; StatusConfig ("재개됨: " +:+ title config)]
     /\ (Visualizer._current_generator <$> visualizer s') = Some (Some g)
     /\ (Visualizer.data <$> visualizer s') = Some (Visualizer.data v)
     /\ (Visualizer.is_running <$> visualizer s') = Some true
     /\ (Visualizer.is_paused <$> visualizer s') = Some false)
  /\ (Visualizer.can_resume v = false ->
      let argument :=
        if has_algorithm_selection config then Some selected else None in
      let shown :=
        if has_algorithm_selection config
        then default selected (ALGORITHM_NAMES env !! selected)
        else title config in
      exists s',
        _start_sort env s = Done s'
        /\ emitted s s' =
             [CallSetStepMode b; CallSetRunningState true; CallSort argument;
              StatusConfig ("실행 중: " +:+ shown)]
        /\ visualizer s' =
             Some (Visualizer.sort (make_producer env) argument
                     (Visualizer.set_step_mode b v)))
  /\ (registry s = MODE_CONFIGS ->
      (has_algorithm_selection config = true <-> current_mode s = Some "basic")).
Proof.
  intros Hv Hc Hcfg b selected. split; [|split].
  - intros Hres. destruct (can_resume_generator v Hres) as (g & Hg & Hex & _).
    destruct (start_resume env s v c config g Hv Hc Hcfg Hres Hg)
      as (s' & Hrun & Hlog & Hv').
    exists g, s'. apply emitted_app in Hlog. rewrite Hv'. done.
  - intros Hres argument shown.
    destruct (start_fresh env s v c config Hv Hc Hcfg Hres)
      as (s' & Hrun & Hlog & Hv').
    exists s'. apply emitted_app in Hlog. done.
  - intros Hreg. unfold current_config in Hcfg.
    destruct (current_mode s) as [m|]; [|done]. rewrite Hreg in Hcfg.
    destruct (MODE_CONFIGS_entries m config Hcfg)
      as [(-> & _ & -> & _)|[(-> & _ & -> & _)|[(-> & _ & -> & _)|(-> & _ & -> & _)]]];
      split; intros; done.
Qed.

Lemma start_resumes_suspended_producer_witness :
  (is_Some (visualizer Sample.paused) /\ is_Some (controls Sample.paused)
   /\ current_config Sample.paused = Some Sample.basic_config
   /\ (Visualizer.can_resume <$> visualizer Sample.paused) = Some true
   /\ (Visualizer.can_resume <$> visualizer Sample.started) = Some false
   /\ registry Sample.paused = MODE_CONFIGS)
  /\ (exists g s',
        (Visualizer._current_generator <$> visualizer Sample.paused) = Some (Some g)
        /\ _start_sort Sample.env Sample.paused = Done s'
        /\ emitted Sample.paused s' =
             [CallSetStepMode false; CallSetRunningState true; AssignResumeFlags;
              CallRunVisualization g; StatusConfig "재개됨: 기본 정렬 알고리즘"]
        /\ (Visualizer._current_generator <$> visualizer s') = Some (Some g))
  /\ (exists s',
        _start_sort Sample.env Sample.started = Done s'
        /\ emitted Sample.started s' =
             [CallSetStepMode false; CallSetRunningState true;
              CallSort (Some "bubble"); StatusConfig "실행 중: Bubble Sort"])
  /\ (has_algorithm_selection Sample.basic_config = true
      <-> current_mode Sample.paused = Some "basic").
Proof.
  destruct (visualizer Sample.paused) as [v|] eqn:H1;
    [|vm_compute in H1; discriminate].
  destruct (controls Sample.paused) as [c|] eqn:H2;
    [|vm_compute in H2; discriminate].
  assert (H3 : current_config Sample.paused = Some Sample.basic_config)
    by (vm_compute; reflexivity).
  assert (H4 : (Visualizer.can_resume <$> visualizer Sample.paused) = Some true)
    by (vm_compute; reflexivity).
  assert (H5 : (Visualizer.can_resume <$> visualizer Sample.started) = Some false)
    by (vm_compute; reflexivity).
  assert (H6 : registry Sample.paused = MODE_CONFIGS)
    by (vm_compute; reflexivity).
  rewrite H1 in H4. simpl in H4.
  split; [repeat split; eauto|].
  destruct (start_resumes_suspended_producer Sample.env Sample.paused v c
              Sample.basic_config H1 H2 H3) as (Hresume & _ & Hbasic).
  split; [|split].
  - injection H4 as H4. destruct (Hresume H4) as (g & s' & Hg & _ & Hrun & He & Hg' & _).
    exists g, s'. simpl. rewrite Hg. split; [reflexivity|]. split; [exact Hrun|].
    split; [|exact Hg']. rewrite He.
    vm_compute in H2. injection H2 as <-. reflexivity.
  - destruct (visualizer Sample.started) as [v0|] eqn:H7;
      [|vm_compute in H7; discriminate].
    destruct (controls Sample.started) as [c0|] eqn:H8;
      [|vm_compute in H8; discriminate].
    simpl in H5. injection H5 as H5.
    destruct (start_resumes_suspended_producer Sample.env Sample.started v0 c0
                Sample.basic_config H7 H8) as (_ & Hfresh & _);
      [vm_compute; reflexivity|].
    destruct (Hfresh H5) as (s' & Hrun & He & _).
    exists s'. split; [exact Hrun|]. rewrite He.
    vm_compute in H8. injection H8 as <-. vm_compute. reflexivity.
  - exact (Hbasic H6).
Defined.

(** ** C5: changing the algorithm during a sort *)

Lemma emitted_same (s : App) : emitted s s = [].
Proof. apply emitted_app. by rewrite app_nil_r. Qed.

(** The handler of an algorithm change leaves every field but the status
    text alone. *)
Lemma change_algorithm_frame (env : Env) (algorithm : string) (s : App) :
  exists s',
    _change_algorithm env algorithm s = Done s'
    /\ registry s' = registry s /\ current_mode s' = current_mode s
    /\ visualizer s' = visualizer s /\ data s' = data s
    /\ title_label s' = title_label s /\ controls s' = controls s
    /\ canvas s' = canvas s
    /\ (emitted s s' = []
        \/ emitted s s' = [StatusConfig (status_bar s')]).
Proof.
  unfold _change_algorithm. destruct (visualizer s) eqn:Hv.
  - case_decide.
    + eexists; split; [reflexivity|]. simpl. repeat split; try done.
      right. apply emitted_app. done.
    + exists s. repeat split; try done. left. apply emitted_same.
  - exists s. repeat split; try done. left. apply emitted_same.
Qed.



(** ** C8: the registry is only read *)

Lemma on_sort_complete_registry (s : App) :
  registry (state_of (_on_sort_complete s)) = registry s.
Proof. unfold _on_sort_complete. destruct (controls s); done. Qed.

Lemma invoke_on_complete_registry (v : Visualizer.t) (s : App) :
  registry (state_of (invoke_on_complete v s)) = registry s.
Proof.
  unfold invoke_on_complete.
  destruct (Visualizer.on_complete v) as [[]|];
    [apply on_sort_complete_registry|done].
Qed.

Lemma switch_registry (env : Env) (mode : string) (s : App) :
  registry (state_of (_switch_to_mode env mode s)) = registry s.
Proof.
  unfold _switch_to_mode. destruct (registry s !! mode) as [config|]; [|done].
  unfold _stop_current.
  destruct (module config) as [[|a m]|]; simpl;
    repeat match goal with |- context [if ?b then _ else _] => destruct b end;
    destruct (visualizer s); done.
Qed.

Lemma start_registry (env : Env) (s : App) :
  registry (state_of (_start_sort env s)) = registry s.
Proof.
  unfold _start_sort, _resume_visualization, current_config.
  destruct (visualizer s) as [v|]; [|done].
  destruct (controls s) as [c|]; [|done]. simpl.
  destruct (Visualizer.can_resume _); simpl.
  - destruct (Visualizer._current_generator v); simpl;
      destruct (current_mode s) as [m|]; try done;
      destruct (registry s !! m); done.
  - destruct (current_mode s) as [m|]; [|done].
    destruct (registry s !! m) as [config|]; [|done].
    destruct (has_algorithm_selection config); done.
Qed.

Lemma change_algorithm_registry (env : Env) (algorithm : string) (s : App) :
  registry (state_of (_change_algorithm env algorithm s)) = registry s.
Proof.
  destruct (change_algorithm_frame env algorithm s) as (s' & -> & H & _). done.
Qed.

(** C8. The registry of the process is [MODE_CONFIGS] when the
    application object is created, and no operation of the application
    changes it: not [__init__], none of the handlers reached from the
    menu, the control panel or the timer, not the completion callback
    and not [_switch_to_heap].  After any sequence of intents the
    registry is still the table of the source, entry for entry. *)
Theorem registry_is_never_mutated (env : Env) :
  registry (created env) = MODE_CONFIGS
  /\ registry (state_of (__init__ env)) = MODE_CONFIGS
  /\ (forall (i : Intent) (s : App),
        registry (state_of (dispatch env i s)) = registry s)
  /\ (forall s : App, registry (state_of (_on_sort_complete s)) = registry s)
  /\ (forall s : App, registry (state_of (_switch_to_heap env s)) = registry s)
  /\ (forall intents : list Intent,
        registry (run env intents (state_of (__init__ env))) = MODE_CONFIGS).
Proof.
  assert (Hstep : forall (i : Intent) (s : App),
            registry (state_of (dispatch env i s)) = registry s).
  { intros [mode| | | | |speed|size|algorithm|b|] s; simpl.
    - apply switch_registry.
    - apply start_registry.
    - unfold _stop_sort. destruct (visualizer s); [|done]. simpl.
      destruct (controls s); done.
    - unfold _reset_sort. destruct (visualizer s); [|done]. simpl.
      destruct (controls s); done.
    - unfold _step_sort, Visualizer.step, Visualizer.consume.
      destruct (visualizer s) as [v|]; [|done].
      destruct (Visualizer.step_mode v); [|done].
      destruct (Visualizer._current_generator v) as [[|st rest]|]; try done.
      rewrite invoke_on_complete_registry. done.
    - unfold _change_speed. destruct (visualizer s); done.
    - apply generate_stores_dataset.
    - unfold select_algorithm. destruct (controls s) as [c|]; [|done].
      destruct (ControlPanel.on_algorithm_change c); [|done].
      rewrite change_algorithm_registry. done.
    - unfold toggle_step_mode. destruct (controls s); done.
    - unfold timer_tick, Visualizer.tick, Visualizer.consume.
      destruct (visualizer s) as [v|]; [|done].
      destruct (_ && _); [|done].
      destruct (Visualizer._current_generator v) as [[|st rest]|]; try done.
      rewrite invoke_on_complete_registry. done. }
  assert (Hinit : registry (state_of (__init__ env)) = MODE_CONFIGS).
  { unfold __init__. rewrite switch_registry. done. }
  split; [done|]. split; [exact Hinit|]. split; [exact Hstep|].
  split; [apply on_sort_complete_registry|]. split.
  - intros s. unfold _switch_to_heap, _stop_current.
    destruct (_ && _); destruct (visualizer s); done.
  - intros intents.
    assert (Hrun : forall s : App, registry (run env intents s) = registry s).
    { induction intents as [|i rest IH]; intros s; simpl; [reflexivity|].
      rewrite IH. apply Hstep. }
    rewrite Hrun. exact Hinit.
Qed.

(** ** C9: handlers without a visualizer *)

(** C9. With no visualizer held, the handlers of start, stop, reset,
    step and speed change return at once and leave the application
    exactly as it was, whatever the other fields are: they do not read
    [self.controls] or look up the current mode, which is what could
    raise before the first mode switch has completed. *)
Theorem handlers_without_visualizer_are_noops (env : Env) (s : App) :
  visualizer s = None ->
  _start_sort env s = Done s
  /\ _stop_sort s = Done s
  /\ _reset_sort s = Done s
  /\ _step_sort s = Done s
  /\ (forall speed : Z, _change_speed speed s = Done s).
Proof.
  intros Hv.
  unfold _start_sort, _stop_sort, _reset_sort, _step_sort, _change_speed.
  rewrite Hv. done.
Qed.

Lemma handlers_without_visualizer_are_noops_witness :
  (visualizer (created Sample.env) = None
   /\ controls (created Sample.env) = None
   /\ current_mode (created Sample.env) = None)
  /\ _start_sort Sample.env (created Sample.env) = Done (created Sample.env)
  /\ _stop_sort (created Sample.env) = Done (created Sample.env)
  /\ _reset_sort (created Sample.env) = Done (created Sample.env)
  /\ _step_sort (created Sample.env) = Done (created Sample.env)
  /\ _change_speed 250 (created Sample.env) = Done (created Sample.env).
Proof.
  split; [repeat split; reflexivity|].
  destruct (handlers_without_visualizer_are_noops Sample.env
              (created Sample.env) eq_refl) as (H1 & H2 & H3 & H4 & H5).
  split; [exact H1|]. split; [exact H2|]. split; [exact H3|].
  split; [exact H4|]. exact (H5 250%Z).
Defined.

(** * Further properties of the handlers *)

(** ** Intents other than a mode switch *)

Lemma same_mode_refl s : same_mode s s.
Proof. close_same_mode. Qed.

Lemma on_sort_complete_same_mode s : same_mode s (state_of (_on_sort_complete s)).
Proof.
  unfold _on_sort_complete. destruct (controls s) eqn:Hc; simpl.
  - close_same_mode; rewrite ?Hc; eauto.
  - apply same_mode_refl.
Qed.

Lemma invoke_on_complete_same_mode v s :
  same_mode s (state_of (invoke_on_complete v s)).
Proof.
  unfold invoke_on_complete. destruct (Visualizer.on_complete v) as [[]|].
  - apply on_sort_complete_same_mode.
  - apply same_mode_refl.
Qed.

Lemma same_mode_trans s1 s2 s3 : same_mode s1 s2 -> same_mode s2 s3 -> same_mode s1 s3.
Proof.
  intros (Hr & Hm & Ht & Hv & Hc & l & Hl & Hf) (Hr' & Hm' & Ht' & Hv' & Hc' & l' & Hl' & Hf').
  unfold same_mode. rewrite Hr', Hm', Ht', Hv', Hc', Hl', Hl.
  repeat split; try tauto. exists (l ++ l'). split; [by rewrite app_assoc|].
  rewrite forallb_app. by rewrite Hf, Hf'.
Qed.

Lemma start_same_mode env s : same_mode s (state_of (_start_sort env s)).
Proof.
  unfold _start_sort, _resume_visualization, current_config.
  destruct (visualizer s) as [v|] eqn:Hv; [|apply same_mode_refl].
  destruct (controls s) as [c|] eqn:Hc; [|apply same_mode_refl]. simpl.
  destruct (Visualizer.can_resume _); simpl.
  - destruct (Visualizer._current_generator v); simpl;
      destruct (current_mode s) as [m|] eqn:Hm; simpl;
      try destruct (registry s !! m);
      close_same_mode; rewrite ?Hv, ?Hc; eauto.
  - destruct (current_mode s) as [m|] eqn:Hm; simpl;
      try destruct (registry s !! m) as [config|];
      try destruct (has_algorithm_selection config);
      close_same_mode; rewrite ?Hv, ?Hc; eauto.
Qed.

Lemma stop_same_mode s : same_mode s (state_of (_stop_sort s)).
Proof.
  unfold _stop_sort. destruct (visualizer s) eqn:Hv; [|apply same_mode_refl].
  simpl. destruct (controls s) eqn:Hc; close_same_mode; rewrite ?Hv, ?Hc; eauto.
Qed.

Lemma reset_same_mode s : same_mode s (state_of (_reset_sort s)).
Proof.
  unfold _reset_sort. destruct (visualizer s) eqn:Hv; [|apply same_mode_refl].
  simpl. destruct (controls s) eqn:Hc; close_same_mode; rewrite ?Hv, ?Hc; eauto.
Qed.

Lemma step_same_mode s : same_mode s (state_of (_step_sort s)).
Proof.
  unfold _step_sort. destruct (visualizer s) as [v|] eqn:Hv; [|apply same_mode_refl].
  destruct (Visualizer.step v (canvas s)) as [[v' cv] fired].
  set (s1 := emit CallStep (set_canvas cv (set_visualizer (Some v') s))).
  assert (H1 : same_mode s s1) by (unfold s1; close_same_mode; rewrite ?Hv; eauto).
  destruct fired; [|exact H1].
  eapply same_mode_trans; [exact H1|apply invoke_on_complete_same_mode].
Qed.

Lemma tick_same_mode s : same_mode s (state_of (timer_tick s)).
Proof.
  unfold timer_tick. destruct (visualizer s) as [v|] eqn:Hv; [|apply same_mode_refl].
  destruct (Visualizer.tick v (canvas s)) as [[v' cv] fired].
  set (s1 := set_canvas cv (set_visualizer (Some v') s)).
  assert (H1 : same_mode s s1) by (unfold s1; close_same_mode; rewrite ?Hv; eauto).
  destruct fired; [|exact H1].
  eapply same_mode_trans; [exact H1|apply invoke_on_complete_same_mode].
Qed.

Lemma speed_same_mode speed s : same_mode s (state_of (_change_speed speed s)).
Proof.
  unfold _change_speed. destruct (visualizer s) eqn:Hv; [|apply same_mode_refl].
  close_same_mode; rewrite ?Hv; eauto.
Qed.

Lemma generate_same_mode env size s : same_mode s (state_of (_generate_data env size s)).
Proof.
  unfold _generate_data, current_config. simpl.
  destruct (visualizer s) eqn:Hv; [|close_same_mode; rewrite ?Hv; eauto].
  destruct (current_mode s) as [m|] eqn:Hm; [|close_same_mode; rewrite ?Hv; eauto].
  destruct (registry s !! m); close_same_mode; rewrite ?Hv; eauto.
Qed.

Lemma change_algorithm_same_mode env a s :
  same_mode s (state_of (_change_algorithm env a s)).
Proof.
  unfold _change_algorithm. destruct (visualizer s) eqn:Hv; [|apply same_mode_refl].
  case_decide; [|apply same_mode_refl]. close_same_mode; rewrite ?Hv; eauto.
Qed.

Lemma select_same_mode env a s : same_mode s (state_of (select_algorithm env a s)).
Proof.
  unfold select_algorithm. destruct (controls s) as [c|] eqn:Hc; [|apply same_mode_refl].
  set (s1 := set_controls _ s).
  assert (H1 : same_mode s s1) by (unfold s1; close_same_mode; rewrite ?Hc; eauto).
  destruct (ControlPanel.on_algorithm_change c); [|exact H1].
  eapply same_mode_trans; [exact H1|apply change_algorithm_same_mode].
Qed.

Lemma toggle_same_mode b s : same_mode s (state_of (toggle_step_mode b s)).
Proof.
  unfold toggle_step_mode. destruct (controls s) eqn:Hc; [|apply same_mode_refl].
  close_same_mode; rewrite ?Hc; eauto.
Qed.

Lemma dispatch_same_mode env i s :
  is_switch i = false -> same_mode s (state_of (dispatch env i s)).
Proof.
  destruct i; simpl; try discriminate; intros _.
  - apply start_same_mode.
  - apply stop_same_mode.
  - apply reset_same_mode.
  - apply step_same_mode.
  - apply speed_same_mode.
  - apply generate_same_mode.
  - apply select_same_mode.
  - apply toggle_same_mode.
  - apply tick_same_mode.
Qed.


(** ** The invariant of the event loop *)

(** Every outcome of a switch to a registered mode. *)
Lemma switch_registered_fields env mode config s :
  registry s !! mode = Some config ->
  let s' := state_of (_switch_to_mode env mode s) in
  registry s' = registry s
  /\ current_mode s' = Some mode
  /\ title_label s' = title config
  /\ data s' = data s
  /\ (is_Some (visualizer s) -> is_Some (visualizer s'))
  /\ (is_Some (controls s) -> is_Some (controls s'))
  /\ (loads env config = true ->
      is_Some (visualizer s') /\ is_Some (controls s')).
Proof.
  intros Hreg. unfold _switch_to_mode, loads. rewrite Hreg.
  unfold _stop_current, install_visualizer, _show_not_implemented.
  destruct (module config) as [[|a m]|]; simpl;
    repeat match goal with |- context [if ?b then _ else _] => destruct b end;
    destruct (visualizer s) eqn:Hv; simpl;
    repeat split; intros; rewrite ?Hv; eauto; try done.
Qed.

Lemma switch_settled env mode s :
  settled s -> settled (state_of (_switch_to_mode env mode s)).
Proof.
  intros (Hr & Hv & Hc & Hcfg).
  destruct (registry s !! mode) as [config|] eqn:Hreg.
  - destruct (switch_registered_fields env mode config s Hreg)
      as (Hr' & Hm' & Ht' & _ & Hv' & Hc' & _).
    unfold settled, current_config. rewrite Hr', Hm', Ht', Hr.
    repeat split; eauto. exists config. by rewrite <- Hr.
  - unfold _switch_to_mode. rewrite Hreg. done.
Qed.

Lemma same_mode_settled s s' : same_mode s s' -> settled s -> settled s'.
Proof.
  intros (Hr & Hm & Ht & Hv & Hc & _) (Hr0 & Hv0 & Hc0 & Hcfg).
  unfold settled, current_config in *. rewrite Hr, Hm, Ht, Hv, Hc. done.
Qed.

Lemma dispatch_settled env i s :
  settled s -> settled (state_of (dispatch env i s)).
Proof.
  intros H. destruct (is_switch i) eqn:Hi.
  - destruct i; try discriminate. apply switch_settled, H.
  - eapply same_mode_settled; [apply dispatch_same_mode, Hi|exact H].
Qed.

Lemma init_settled env : settled (state_of (__init__ env)).
Proof.
  destruct (switch_registered_fields env "basic" Sample.basic_config (created env))
    as (Hr & Hm & Ht & _ & _ & _ & Hl); [done|].
  destruct (Hl eq_refl) as [Hv Hc]. unfold __init__, settled, current_config.
  rewrite Hr, Hm, Ht. repeat split; eauto.
Qed.

Lemma run_settled env intents s : settled s -> settled (run env intents s).
Proof.
  revert s. induction intents as [|i rest IH]; intros s H; simpl; [done|].
  apply IH, dispatch_settled, H.
Qed.

(** ** Which handlers can raise *)

Lemma on_sort_complete_returns s :
  is_Some (controls s) -> returns (_on_sort_complete s) = true.
Proof. intros [c Hc]. unfold _on_sort_complete. by rewrite Hc. Qed.

Lemma settled_returns env i s :
  settled s -> is_switch i = false -> returns (dispatch env i s) = true.
Proof.
  intros (Hr & [v Hv] & [c Hc] & config & Hcfg & _) Hi.
  destruct i; simpl in *; try discriminate.
  - destruct (Visualizer.can_resume v) eqn:Hres.
    + destruct (can_resume_generator v Hres) as (g & Hg & _).
      destruct (start_resume env s v c config g Hv Hc Hcfg Hres Hg) as (s' & -> & _).
      done.
    + destruct (start_fresh env s v c config Hv Hc Hcfg Hres) as (s' & -> & _).
      done.
  - unfold _stop_sort. rewrite Hv. simpl. by rewrite Hc.
  - destruct (reset_with_visualizer s v c Hv Hc) as (s' & -> & _). done.
  - unfold _step_sort. rewrite Hv.
    destruct (Visualizer.step v (canvas s)) as [[v' cv] fired].
    destruct fired; [|done]. unfold invoke_on_complete.
    destruct (Visualizer.on_complete v') as [[]|]; [|done].
    apply on_sort_complete_returns. simpl. eauto.
  - unfold _change_speed. by rewrite Hv.
  - destruct (generate_with_visualizer env size s v config Hv Hcfg) as (s' & -> & _).
    done.
  - destruct (select_algorithm_frame env algorithm s c Hc) as (s' & -> & _). done.
  - unfold toggle_step_mode. by rewrite Hc.
  - unfold timer_tick. rewrite Hv.
    destruct (Visualizer.tick v (canvas s)) as [[v' cv] fired].
    destruct fired; [|done]. unfold invoke_on_complete.
    destruct (Visualizer.on_complete v') as [[]|]; [|done].
    apply on_sort_complete_returns. simpl. eauto.
Qed.

Lemma switch_raise env mode s e s' :
  _switch_to_mode env mode s = Raised e s' ->
  e = AttributeError
  /\ exists config name,
       registry s !! mode = Some config
       /\ module config = Some name
       /\ importable env name = true
       /\ module_defines env name (visualizer_class config) = false.
Proof.
  unfold _switch_to_mode. destruct (registry s !! mode) as [config|]; [|done].
  destruct (module config) as [[|a m]|] eqn:Hm; try done.
  destruct (importable env (String a m)) eqn:Himp; [|done].
  destruct (module_defines env (String a m) (visualizer_class config)) eqn:Hdef;
    [done|].
  intros H. injection H as <- _. split; [done|]. exists config, (String a m). done.
Qed.

Lemma no_rebuild_filter (l : list Event) :
  forallb (fun e => negb (rebuilds e)) l = true -> List.filter rebuilds l = [].
Proof.
  induction l as [|e l IH]; simpl; [done|].
  destruct (rebuilds e); simpl; [done|exact IH].
Qed.

(** ** The properties *)

(** X1. Once [__init__] has returned, and after any sequence of intents,
    the application holds a visualizer and a control panel, its current
    mode is a key of the registry, and the title shown is the title of
    that mode. *)
Theorem reachable_states_are_settled (env : Env) (intents : list Intent) :
  let s := run env intents (state_of (__init__ env)) in
  is_Some (visualizer s)
  /\ is_Some (controls s)
  /\ exists mode config,
       current_mode s = Some mode /\ MODE_CONFIGS !! mode = Some config
       /\ title_label s = title config.
Proof.
  intros s.
  destruct (run_settled env intents _ (init_settled env))
    as (Hr & Hv & Hc & config & Hcfg & Ht).
  fold s in Hr, Hv, Hc, Hcfg, Ht. split; [done|]. split; [done|].
  unfold current_config in Hcfg. destruct (current_mode s) as [mode|]; [|done].
  exists mode, config. by rewrite <- Hr.
Qed.

(** X2. In a state reached from [__init__] the only handler that can
    raise is a mode switch, the exception is [AttributeError], and it
    happens exactly in the case the [except ImportError] clause does not
    cover: the module of the mode imports but does not define the
    class.  No handler raises [KeyError], and none fails for a missing
    [self.controls]. *)
Theorem only_a_missing_class_raises
    (env : Env) (intents : list Intent) (i : Intent) (e : Exception) (s' : App) :
  dispatch env i (run env intents (state_of (__init__ env))) = Raised e s' ->
  e = AttributeError
  /\ exists mode config name,
       i = SwitchMode mode
       /\ MODE_CONFIGS !! mode = Some config
       /\ module config = Some name
       /\ importable env name = true
       /\ module_defines env name (visualizer_class config) = false.
Proof.
  intros H.
  pose proof (run_settled env intents _ (init_settled env)) as Hs.
  destruct (is_switch i) eqn:Hi.
  - destruct i; try discriminate. simpl in H.
    destruct (switch_raise env mode _ e s' H) as (-> & config & name & Hreg & Hrest).
    split; [done|]. exists mode, config, name. split; [done|].
    destruct Hs as (Hr & _). rewrite Hr in Hreg. done.
  - pose proof (settled_returns env i _ Hs Hi) as Hret. rewrite H in Hret. done.
Qed.

Lemma only_a_missing_class_raises_witness :
  let s := run env_with_hollow_quick [Start; Tick] (state_of (__init__ env_with_hollow_quick)) in
  let s' := state_of (dispatch env_with_hollow_quick (SwitchMode "quick") s) in
  dispatch env_with_hollow_quick (SwitchMode "quick") s = Raised AttributeError s'
  /\ importable env_with_hollow_quick "visualizers.quick_visualizer" = true
  /\ module_defines env_with_hollow_quick "visualizers.quick_visualizer"
       "QuickSortVisualizer" = false.
Proof.
  cbv zeta.
  assert (H : dispatch env_with_hollow_quick (SwitchMode "quick")
                (run env_with_hollow_quick [Start; Tick]
                   (state_of (__init__ env_with_hollow_quick)))
              = Raised AttributeError
                  (state_of (dispatch env_with_hollow_quick (SwitchMode "quick")
                     (run env_with_hollow_quick [Start; Tick]
                        (state_of (__init__ env_with_hollow_quick))))))
    by (vm_compute; reflexivity).
  split; [exact H|].
  destruct (only_a_missing_class_raises env_with_hollow_quick [Start; Tick]
              (SwitchMode "quick") AttributeError _ H)
    as (_ & mode & config & name & Hi & Hreg & Hmod & Himp & Hdef).
  injection Hi as <-.
  assert (Hq : MODE_CONFIGS !! "quick" = Some Sample.quick_config)
    by (vm_compute; reflexivity).
  rewrite Hq in Hreg. injection Hreg as <-. injection Hmod as <-.
  split; [exact Himp|exact Hdef].
Defined.

(** X3. Only a mode switch changes the mode: every other intent leaves
    the registry, the current mode and the title as they were, neither
    drops nor creates the visualizer or the control panel, and makes
    none of the calls by which a switch rebuilds them (title update,
    widget removal, import, construction of a panel or a visualizer,
    wiring of the callback). *)
Theorem other_intents_keep_the_mode (env : Env) (i : Intent) (s : App) :
  is_switch i = false ->
  let s' := state_of (dispatch env i s) in
  registry s' = registry s
  /\ current_mode s' = current_mode s
  /\ title_label s' = title_label s
  /\ (is_Some (visualizer s') <-> is_Some (visualizer s))
  /\ (is_Some (controls s') <-> is_Some (controls s))
  /\ List.filter rebuilds (emitted s s') = [].
Proof.
  intros Hi s'.
  destruct (dispatch_same_mode env i s Hi) as (Hr & Hm & Ht & Hv & Hc & l & Hl & Hf).
  fold s' in Hr, Hm, Ht, Hv, Hc, Hl.
  repeat split; try tauto; try done.
  apply emitted_app in Hl. rewrite Hl. apply no_rebuild_filter, Hf.
Qed.

Lemma other_intents_keep_the_mode_witness :
  is_switch (Generate 20) = false
  /\ (let s' := state_of (dispatch Sample.env (Generate 20) Sample.in_quick) in
      current_mode s' = Some "quick"
      /\ title_label s' = "퀵 정렬 (Quick Sort)"
      /\ List.filter rebuilds (emitted Sample.in_quick s') = []).
Proof.
  split; [reflexivity|]. cbv zeta.
  destruct (other_intents_keep_the_mode Sample.env (Generate 20) Sample.in_quick
              eq_refl) as (_ & Hm & Ht & _ & _ & Hl).
  rewrite Hm, Ht. split; [vm_compute; reflexivity|].
  split; [vm_compute; reflexivity|exact Hl].
Defined.

(** X4. The menu offers exactly the keys of [MODE_CONFIGS], so the guard
    for unknown modes never fires from the menu: with the registry of the
    source, each menu entry makes its mode the current mode and writes
    that mode's title, whether or not the visualizer of the mode can
    then be loaded. *)
Theorem menu_entries_always_switch (env : Env) (mode : string) (s : App) :
  registry s = MODE_CONFIGS ->
  (mode ∈ menu_modes <-> is_Some (MODE_CONFIGS !! mode))
  /\ (mode ∈ menu_modes ->
      let s' := state_of (_switch_to_mode env mode s) in
      exists config,
        MODE_CONFIGS !! mode = Some config
        /\ current_mode s' = Some mode
        /\ title_label s' = title config
        /\ TitleConfig (title config) ∈ emitted s s').
Proof.
  intros Hreg.
  assert (Hmenu : mode ∈ menu_modes <-> is_Some (MODE_CONFIGS !! mode)).
  { split.
    - unfold menu_modes. rewrite !elem_of_cons, elem_of_nil.
      intros [->|[->|[->|[->|[]]]]]; vm_compute; eauto.
    - intros [config H].
      destruct (MODE_CONFIGS_entries mode config H)
        as [(-> & _)|[(-> & _)|[(-> & _)|(-> & _)]]];
        unfold menu_modes; rewrite !elem_of_cons; tauto. }
  split; [exact Hmenu|]. intros Hin s'.
  destruct (proj1 Hmenu Hin) as [config Hcfg]. exists config.
  assert (Hreg' : registry s !! mode = Some config) by (by rewrite Hreg).
  destruct (switch_registered_fields env mode config s Hreg')
    as (_ & Hm & Ht & _).
  fold s' in Hm, Ht. repeat split; try done.
  unfold s', _switch_to_mode, emitted. rewrite Hreg'.
  unfold _stop_current, install_visualizer, _show_not_implemented, _update_status.
  destruct (module config) as [[|a m]|]; simpl;
    repeat match goal with |- context [if ?b then _ else _] => destruct b end;
    destruct (visualizer s); simpl; rewrite <- ?app_assoc, drop_app_length;
    apply list_elem_of_In; simpl; tauto.
Qed.

Lemma menu_entries_always_switch_witness :
  (registry Sample.running = MODE_CONFIGS /\ "merge" ∈ menu_modes)
  /\ (let s' := state_of (_switch_to_mode Sample.env_without_quick "merge"
                            Sample.running) in
      current_mode s' = Some "merge"
      /\ title_label s' = "병합 정렬 (Merge Sort)").
Proof.
  assert (H1 : registry Sample.running = MODE_CONFIGS) by (vm_compute; reflexivity).
  assert (H2 : "merge" ∈ menu_modes).
  { unfold menu_modes. rewrite !elem_of_cons. tauto. }
  split; [done|]. cbv zeta.
  destruct (menu_entries_always_switch Sample.env_without_quick "merge"
              Sample.running H1) as (_ & Hswitch).
  destruct (Hswitch H2) as (config & Hcfg & Hm & Ht & _).
  split; [exact Hm|]. rewrite Ht.
  vm_compute in Hcfg. injection Hcfg as <-. reflexivity.
Defined.

(** X5. Start-up needs none of the optional visualizer modules: for every
    environment [__init__] returns, attempts no import, and leaves the
    application in basic mode with a [BarVisualizer] built from the whole
    generated dataset; the status line then shows the length of that
    dataset in place of the fixed figure the status bar is created
    with. *)
Theorem startup_needs_no_import (env : Env) :
  let generated := generate_random_data env DEFAULT_DATA_SIZE in
  exists s,
    __init__ env = Done s
    /\ emitted (created env) s =
         [TitleConfig "기본 정렬 알고리즘"; DestroyControlWidgets;
          NewControlPanel true; NewVisualizer "BarVisualizer" generated;
          AssignOnComplete; CallDraw;
          StatusConfig ("기본 정렬 알고리즘 | 데이터 크기: "
                        +:+ pretty (length generated))]
    /\ current_mode s = Some "basic"
    /\ data s = generated
    /\ status_bar s = "기본 정렬 알고리즘 | 데이터 크기: " +:+ pretty (length generated).
Proof.
  intros generated. unfold __init__.
  destruct (switch_loaded env "basic" Sample.basic_config (created env))
    as (s & Hrun & Hlog & _ & _ & _ & Hst & _ & Hm & Hd & _); [done..|].
  exists s. apply emitted_app in Hlog. repeat split; done.
Qed.

(** X6. A successful mode switch forgets what came before: from two
    states with the same registry entry for the mode and the same
    dataset, whatever their previous mode, visualizer, control panel,
    canvas and status, the switch ends with the same mode, title,
    visualizer, control panel, canvas, status and dataset. *)
Theorem switch_result_forgets_history
    (env : Env) (mode : string) (config : ModeConfig) (s1 s2 : App) :
  registry s1 !! mode = Some config ->
  registry s2 !! mode = Some config ->
  data s1 = data s2 ->
  loads env config = true ->
  exists s1' s2',
    _switch_to_mode env mode s1 = Done s1'
    /\ _switch_to_mode env mode s2 = Done s2'
    /\ current_mode s1' = current_mode s2'
    /\ title_label s1' = title_label s2'
    /\ visualizer s1' = visualizer s2'
    /\ controls s1' = controls s2'
    /\ canvas s1' = canvas s2'
    /\ status_bar s1' = status_bar s2'
    /\ data s1' = data s2'.
Proof.
  intros H1 H2 Hd Hload.
  destruct (switch_loaded env mode config s1 H1 Hload)
    as (s1' & Hrun1 & _ & Hv1 & Hc1 & Hcv1 & Hst1 & Ht1 & Hm1 & Hd1 & _).
  destruct (switch_loaded env mode config s2 H2 Hload)
    as (s2' & Hrun2 & _ & Hv2 & Hc2 & Hcv2 & Hst2 & Ht2 & Hm2 & Hd2 & _).
  exists s1', s2'.
  rewrite Hv1, Hv2, Hc1, Hc2, Hcv1, Hcv2, Hst1, Hst2, Ht1, Ht2, Hm1, Hm2, Hd1, Hd2, Hd.
  done.
Qed.

Lemma switch_result_forgets_history_witness :
  (registry Sample.paused !! "quick" = Some Sample.quick_config
   /\ registry Sample.in_quick !! "quick" = Some Sample.quick_config
   /\ data Sample.paused = data Sample.in_quick
   /\ loads Sample.env Sample.quick_config = true)
  /\ exists s1' s2',
       _switch_to_mode Sample.env "quick" Sample.paused = Done s1'
       /\ _switch_to_mode Sample.env "quick" Sample.in_quick = Done s2'
       /\ visualizer s1' = visualizer s2'
       /\ status_bar s1' = status_bar s2'.
Proof.
  assert (H1 : registry Sample.paused !! "quick" = Some Sample.quick_config)
    by (vm_compute; reflexivity).
  assert (H2 : registry Sample.in_quick !! "quick" = Some Sample.quick_config)
    by (vm_compute; reflexivity).
  assert (H3 : data Sample.paused = data Sample.in_quick)
    by (vm_compute; reflexivity).
  assert (H4 : loads Sample.env Sample.quick_config = true)
    by (vm_compute; reflexivity).
  split; [done|].
  destruct (switch_result_forgets_history Sample.env "quick" Sample.quick_config
              Sample.paused Sample.in_quick H1 H2 H3 H4)
    as (s1' & s2' & Hr1 & Hr2 & _ & _ & Hv & _ & _ & Hst & _).
  exists s1', s2'. done.
Defined.

(** X7. [_switch_to_heap], the stand-alone heap switch that no menu entry
    calls, agrees with [_switch_to_mode('heap')] when the class loads,
    except that it leaves the status line as it was: mode, title,
    visualizer, control panel, canvas and dataset are the same and the
    same calls are made, up to the final status update (a panel built
    without the optional algorithm callback being the panel built with
    [None] for it).  When the module
    or the class is missing it shows the placeholder, also in the case
    where [_switch_to_mode('heap')] raises. *)
Theorem switch_to_heap_matches_registry_switch (env : Env) (s : App) :
  registry s = MODE_CONFIGS ->
  let name := "visualizers.heap_visualizer" in
  let found := importable env name && module_defines env name "HeapSortVisualizer" in
  (found = true ->
   exists a b,
     _switch_to_mode env "heap" s = Done a
     /\ _switch_to_heap env s = Done b
     /\ current_mode b = current_mode a
     /\ title_label b = title_label a
     /\ visualizer b = visualizer a
     /\ controls b = controls a
     /\ canvas b = canvas a
     /\ data b = data a
     /\ status_bar b = status_bar s
     /\ emitted s a = emitted s b ++ [StatusConfig (status_bar a)])
  /\ (found = false ->
      exists b,
        _switch_to_heap env s = Done b
        /\ canvas b = CanvasText ("힙 정렬 (Heap Sort)" +:+ " 시각화" +:+ newline
                                  +:+ "(구현 예정)")
        /\ status_bar b = "힙 정렬 (Heap Sort) - 아직 구현되지 않았습니다"
        /\ current_mode b = Some "heap"
        /\ (importable env name = true ->
            returns (_switch_to_mode env "heap" s) = false)).
Proof.
  intros Hreg name found.
  assert (Hheap : registry s !! "heap" =
            Some {| title := "힙 정렬 (Heap Sort)";
                    visualizer_class := "HeapSortVisualizer";
                    max_size := Some HEAP_SORT_MAX_SIZE;
                    has_algorithm_selection := false;
                    module := Some "visualizers.heap_visualizer" |})
    by (by rewrite Hreg).
  split.
  - intros Hfound.
    destruct (switch_loaded env "heap" _ s Hheap Hfound)
      as (a & Hrun & Hlog & Hv & Hc & Hcv & Hst & Ht & Hm & Hd & _).
    exists a. unfold _switch_to_heap. fold name. fold found. rewrite Hfound.
    eexists. split; [exact Hrun|]. split; [reflexivity|].
    apply emitted_app in Hlog.
    rewrite Hlog, Hv, Hc, Hcv, Ht, Hm, Hd, Hst.
    unfold emitted, _stop_current, stop_calls.
    destruct (visualizer s); simpl; rewrite <- ?app_assoc, drop_app_length;
      repeat split; reflexivity.
  - intros Hfound. unfold _switch_to_heap. fold name. fold found. rewrite Hfound.
    eexists. split; [reflexivity|]. simpl. repeat split.
    intros Himp. unfold _switch_to_mode. rewrite Hheap. simpl.
    unfold found in Hfound. fold name. rewrite Himp in *. simpl in Hfound.
    by rewrite Hfound.
Qed.

Lemma switch_to_heap_matches_registry_switch_witness :
  (registry Sample.running = MODE_CONFIGS
   /\ importable Sample.env "visualizers.heap_visualizer"
      && module_defines Sample.env "visualizers.heap_visualizer"
           "HeapSortVisualizer" = true)
  /\ exists a b,
       _switch_to_mode Sample.env "heap" Sample.running = Done a
       /\ _switch_to_heap Sample.env Sample.running = Done b
       /\ visualizer b = visualizer a
       /\ status_bar a = "힙 정렬 (Heap Sort) | 데이터 크기: 10"
       /\ status_bar b = status_bar Sample.running.
Proof.
  assert (H1 : registry Sample.running = MODE_CONFIGS) by (vm_compute; reflexivity).
  split; [split; [exact H1|reflexivity]|].
  destruct (switch_to_heap_matches_registry_switch Sample.env Sample.running H1)
    as (Hfound & _).
  destruct (Hfound eq_refl)
    as (a & b & Ha & Hb & _ & _ & Hv & _ & _ & _ & Hst & _).
  exists a, b. split; [exact Ha|]. split; [exact Hb|]. split; [exact Hv|].
  split; [|exact Hst].
  vm_compute in Ha. injection Ha as <-. reflexivity.
Defined.

(** X8. A class missing from a module that imports is not covered by the
    [except ImportError] clause: the switch raises [AttributeError] after
    it has stopped the previous visualizer, made the requested mode
    current, written its title and destroyed the control widgets; no
    placeholder is drawn, and the canvas, the status line, the control
    panel object and the dataset stay those of the previous mode. *)
Theorem missing_class_escapes_the_switch
    (env : Env) (mode name : string) (config : ModeConfig) (s : App) :
  registry s !! mode = Some config ->
  module config = Some name -> name <> "" ->
  importable env name = true ->
  module_defines env name (visualizer_class config) = false ->
  exists s',
    _switch_to_mode env mode s = Raised AttributeError s'
    /\ emitted s s' =
         stop_calls s ++ [TitleConfig (title config); DestroyControlWidgets;
                          ImportModule name]
    /\ current_mode s' = Some mode
    /\ title_label s' = title config
    /\ visualizer s' = Visualizer.stop <$> visualizer s
    /\ controls s' = controls s
    /\ canvas s' = canvas s
    /\ status_bar s' = status_bar s
    /\ data s' = data s.
Proof.
  intros Hreg Hmod Hne Himp Hdef. unfold _switch_to_mode.
  rewrite Hreg, Hmod. destruct name as [|a m]; [done|]. rewrite Himp, Hdef.
  eexists. split; [reflexivity|].
  unfold _stop_current, stop_calls, emitted.
  destruct (visualizer s) eqn:Hv; simpl; rewrite <- ?app_assoc, drop_app_length;
    rewrite ?Hv; done.
Qed.

Lemma missing_class_escapes_the_switch_witness :
  (registry Sample.running !! "quick" = Some Sample.quick_config
   /\ module Sample.quick_config = Some "visualizers.quick_visualizer"
   /\ "visualizers.quick_visualizer" <> ""
   /\ importable env_with_hollow_quick "visualizers.quick_visualizer" = true
   /\ module_defines env_with_hollow_quick "visualizers.quick_visualizer"
        (visualizer_class Sample.quick_config) = false)
  /\ exists s',
       _switch_to_mode env_with_hollow_quick "quick" Sample.running
         = Raised AttributeError s'
       /\ current_mode s' = Some "quick"
       /\ status_bar s' = "실행 중: Bubble Sort".
Proof.
  assert (H1 : registry Sample.running !! "quick" = Some Sample.quick_config)
    by (vm_compute; reflexivity).
  assert (H2 : "visualizers.quick_visualizer" <> "") by discriminate.
  split; [repeat split; try done|].
  destruct (missing_class_escapes_the_switch env_with_hollow_quick "quick"
              "visualizers.quick_visualizer" Sample.quick_config Sample.running
              H1 eq_refl H2 eq_refl eq_refl)
    as (s' & Hrun & _ & Hm & _ & _ & _ & _ & Hst & _).
  exists s'. split; [exact Hrun|]. split; [exact Hm|]. rewrite Hst.
  vm_compute. reflexivity.
Defined.

(** X9. What [self.data[:max_size] if max_size else self.data] hands
    over is always a prefix of the dataset.  A positive cap gives the
    first [min(cap, len)] elements, so a dataset no longer than the cap
    is handed over whole and nothing is padded; a cap of [None] or of
    [0] is no cap at all. *)
Theorem data_to_use_is_a_prefix (max_size : option Z) (data : list Z) :
  data_to_use max_size data `prefix_of` data
  /\ (forall n : Z, max_size = Some n -> (0 < n)%Z ->
        data_to_use max_size data = take (Z.to_nat n) data
        /\ length (data_to_use max_size data) = Z.to_nat n `min` length data)
  /\ (forall n : Z, max_size = Some n -> (0 < n)%Z -> (Z.of_nat (length data) <= n)%Z ->
        data_to_use max_size data = data)
  /\ (max_size = None \/ max_size = Some 0%Z -> data_to_use max_size data = data).
Proof.
  split; [|split; [|split]].
  - unfold data_to_use, slice_to. destruct max_size as [n|]; [|done].
    destruct (n =? 0)%Z; [done|]. destruct (0 <=? n)%Z; apply prefix_take.
  - intros n -> Hn. unfold data_to_use, slice_to.
    destruct (Z.eqb_spec n 0); [lia|]. destruct (Z.leb_spec 0 n); [|lia].
    split; [done|]. apply length_take.
  - intros n -> Hn Hlen. unfold data_to_use, slice_to.
    destruct (Z.eqb_spec n 0); [lia|]. destruct (Z.leb_spec 0 n); [|lia].
    apply take_ge. lia.
  - intros [->| ->]; reflexivity.
Qed.

Lemma data_to_use_is_a_prefix_witness :
  ((0 < 8)%Z /\ (Z.of_nat (length [5; 3; 1]%Z) <= 8)%Z)
  /\ data_to_use (Some 8%Z) [5; 3; 1]%Z = [5; 3; 1]%Z
  /\ length (data_to_use (Some 8%Z) (Sample.numbers 15)) = 8
  /\ data_to_use (Some 0%Z) [5; 3; 1]%Z = [5; 3; 1]%Z.
Proof.
  split; [split; [lia|vm_compute; discriminate]|].
  split; [|split].
  - destruct (data_to_use_is_a_prefix (Some 8%Z) [5; 3; 1]%Z) as (_ & _ & H & _).
    apply (H 8%Z eq_refl); [lia|vm_compute; discriminate].
  - destruct (data_to_use_is_a_prefix (Some 8%Z) (Sample.numbers 15))
      as (_ & H & _).
    destruct (H 8%Z eq_refl) as [_ Hlen]; [lia|]. rewrite Hlen. reflexivity.
  - destruct (data_to_use_is_a_prefix (Some 0%Z) [5; 3; 1]%Z)
      as (_ & _ & _ & H).
    apply H. right. reflexivity.
Defined.

(** X10. A data regeneration and a reset both call [reset] on the
    visualizer, but only the reset handler tells the control panel that
    nothing is running: [_generate_data] never touches the control
    panel, so a panel in the running state stays in the running state
    after the visualizer has been reset with the new data. *)
Theorem regeneration_leaves_the_control_panel
    (env : Env) (size : Z) (s : App) (v : Visualizer.t) (c : ControlPanel.t)
    (config : ModeConfig) :
  visualizer s = Some v ->
  controls s = Some c ->
  current_config s = Some config ->
  exists g r,
    _generate_data env size s = Done g
    /\ _reset_sort s = Done r
    /\ (exists arr, CallReset (Some arr) ∈ emitted s g)
    /\ CallReset None ∈ emitted s r
    /\ controls g = Some c
    /\ List.filter (fun e => match e with CallSetRunningState _ => true | _ => false end)
         (emitted s g) = []
    /\ controls r = Some (ControlPanel.set_running_state false c)
    /\ CallSetRunningState false ∈ emitted s r.
Proof.
  intros Hv Hc Hcfg.
  destruct (generate_with_visualizer env size s v config Hv Hcfg)
    as (g & Hg & Hlg & _).
  destruct (reset_with_visualizer s v c Hv Hc) as (r & Hr & Hlr & _ & Hcr & _).
  exists g, r. apply emitted_app in Hlg, Hlr. rewrite Hlg, Hlr, Hcr.
  split; [done|]. split; [done|]. split.
  { eexists. apply list_elem_of_In. simpl. left. reflexivity. }
  split; [apply list_elem_of_In; simpl; tauto|]. split.
  { unfold _generate_data in Hg. simpl in Hg. rewrite Hv in Hg.
    unfold current_config in *. simpl in Hg.
    destruct (current_mode s); [|done]. rewrite Hcfg in Hg.
    injection Hg as <-. simpl. exact Hc. }
  split; [reflexivity|]. split; [done|].
  apply list_elem_of_In. simpl. tauto.
Qed.

Lemma regeneration_leaves_the_control_panel_witness :
  (is_Some (visualizer Sample.running)
   /\ (ControlPanel.running <$> controls Sample.running) = Some true
   /\ current_config Sample.running = Some Sample.basic_config)
  /\ exists g r,
       _generate_data Sample.env 20 Sample.running = Done g
       /\ _reset_sort Sample.running = Done r
       /\ (ControlPanel.running <$> controls g) = Some true
       /\ (ControlPanel.running <$> controls r) = Some false.
Proof.
  destruct (visualizer Sample.running) as [v|] eqn:H1;
    [|vm_compute in H1; discriminate].
  destruct (controls Sample.running) as [c|] eqn:H2;
    [|vm_compute in H2; discriminate].
  assert (H3 : current_config Sample.running = Some Sample.basic_config)
    by (vm_compute; reflexivity).
  assert (H4 : ControlPanel.running c = true)
    by (vm_compute in H2; injection H2 as <-; reflexivity).
  split; [simpl; rewrite H4; eauto|].
  destruct (regeneration_leaves_the_control_panel Sample.env 20 Sample.running
              v c Sample.basic_config H1 H2 H3)
    as (g & r & Hg & Hr & _ & _ & Hcg & _ & Hcr & _).
  exists g, r. rewrite Hcg, Hcr. simpl. rewrite H4. done.
Defined.
